(** * WebBluetooth over SimpleBLE: the GATT object model and the Bluetooth hub

    A shallow embedding of [src/gatt.ts] (descriptor, characteristic,
    service, GATT server, device) and of the hub module (class [Bluetooth],
    function [checkManufacturerData]), with the SimpleBLE binding kept as a
    stub whose answers are parameters and whose calls are recorded in a
    trace.

    Conventions
    - the bytes of a buffer, typed array or view are a [list byte]; an
      argument that may be a buffer or a view of one is a [BufferSource];
    - a JavaScript [Map<number, DataView>] is a [gmap N (list byte)];
    - a method that may throw returns a [Completion]; a method that mutates
      an object takes the object and returns its new state;
    - calls into the binding are appended to a trace of [BindingCall]s and
      dispatched events to a log of [Event]s, oldest first. *)

From Stdlib Require Import String List Bool Arith NArith Lia.
From Stdlib.Strings Require Import Byte.
From stdpp Require Import base option list strings gmap.

Import ListNotations.
Local Open Scope string_scope.
Local Open Scope list_scope.

(** ** Exceptions and completions *)

(** The exception classes thrown by the modelled code. *)
Inductive Exn : Type :=
| Error (message : string)
| TypeError (message : string)
| RangeError (message : string)
| DOMException (message : string).

(** The result of running a method body: a value, or a thrown exception. *)
Inductive Completion (A : Type) : Type :=
| Normal (a : A)
| Throw (e : Exn).

Arguments Normal {A} a.
Arguments Throw {A} e.

Definition is_normal {A} (c : Completion A) : bool :=
  match c with Normal _ => true | Throw _ => false end.

(** ** Byte buffers *)

(** A [DataView] created with [new DataView(buffer)]: offset 0, the whole
    buffer is visible. *)
Abbreviation DataView := (list byte).

(** A [BufferSource] argument: an [ArrayBuffer], or a view
    ([Uint8Array], [DataView], ...) of [byteLength] bytes starting at
    [byteOffset] of an underlying buffer. *)
Inductive BufferSource : Type :=
| ArrayBuffer (bytes : list byte)
| ArrayBufferView (buffer : list byte) (byteOffset byteLength : nat).

(** [isView] of [./common] ([ArrayBuffer.isView]). *)
Definition isView (value : BufferSource) : bool :=
  match value with
  | ArrayBuffer _ => false
  | ArrayBufferView _ _ _ => true
  end.

(** [isView(value) ? value.buffer : value], the idiom used before every
    write and in [checkManufacturerData]: a view is replaced by its whole
    underlying buffer, whatever its offset and length. *)
Definition buffer_of (value : BufferSource) : list byte :=
  match value with
  | ArrayBuffer bytes => bytes
  | ArrayBufferView buffer _ _ => buffer
  end.

(** The bytes a [BufferSource] denotes for its owner: the viewed range. *)
Definition viewed_bytes (value : BufferSource) : list byte :=
  match value with
  | ArrayBuffer bytes => bytes
  | ArrayBufferView buffer off len => take len (drop off buffer)
  end.

(** The [Uint8Array] the binding returns from a read: a typed array of
    the bytes read, viewing the whole of its own buffer. *)
Definition Uint8Array_of (bytes : list byte) : BufferSource :=
  ArrayBufferView bytes 0 (length bytes).

(** [new DataView(buffer)]: the argument must be an [ArrayBuffer], of
    which the view then shows every byte; for a typed array or another
    view the constructor throws a [TypeError] (the message is V8's). *)
Definition new_DataView (buffer : BufferSource) : Completion DataView :=
  match buffer with
  | ArrayBuffer bytes => Normal bytes
  | ArrayBufferView _ _ _ =>
      Throw (TypeError "First argument to DataView constructor must be an ArrayBuffer")
  end.

(** [view.getUint8(i)]: a [RangeError] outside the bounds of the view. *)
Definition getUint8 (view : DataView) (i : nat) : Completion byte :=
  match view !! i with
  | Some a => Normal a
  | None => Throw (RangeError "Offset is outside the bounds of the DataView")
  end.

(** ** Manufacturer data filter *)

(** [BluetoothManufacturerData]: company identifier to data. *)
Abbreviation BluetoothManufacturerData := (gmap N DataView).

Record BluetoothManufacturerDataFilter : Type := {
  companyIdentifier : N;
  dataPrefix : option BufferSource
}.

(** The inner loop of [checkManufacturerData]:
    [for (const [i, b] of bytes.entries()) { const a = view.getUint8(i);
    values[i] = a === b; }], started at index [i] with [values] filled up
    to [i]. *)
Fixpoint compare_bytes (view : DataView) (i : nat) (bytes : list byte)
    (values : list bool) : Completion (list bool) :=
  match bytes with
  | [] => Normal values
  | b :: rest =>
      match getUint8 view i with
      | Throw e => Throw e
      | Normal a => compare_bytes view (S i) rest (values ++ [Byte.eqb a b])
      end
  end.

(** [values.every((val) => val)]. *)
Definition every_true (values : list bool) : bool := forallb (fun val => val) values.

(** [checkManufacturerData(map, filters)]. A value stored in the map is a
    [DataView] object, hence truthy: the [!view] branch is the [None] case
    of the lookup, already taken by [!map.has(companyIdentifier)]. *)
Fixpoint checkManufacturerData (map : BluetoothManufacturerData)
    (filters : list BluetoothManufacturerDataFilter) : Completion bool :=
  match filters with
  | [] => Normal false
  | filter :: rest =>
      match map !! companyIdentifier filter with
      | None => checkManufacturerData map rest
      | Some view =>
          match dataPrefix filter with
          | None => Normal true
          | Some prefix =>
              match compare_bytes view 0 (buffer_of prefix) [] with
              | Throw e => Throw e
              | Normal values =>
                  if every_true values then Normal true
                  else checkManufacturerData map rest
              end
          end
      end
  end.

(** ** UUID arguments *)

(** [BluetoothServiceUUID], [BluetoothCharacteristicUUID],
    [BluetoothDescriptorUUID]: a string (name or UUID) or a number. *)
Inductive UUID : Type :=
| UUIDString (s : string)
| UUIDNumber (n : N).

(** JavaScript truthiness of an optional UUID argument, for [!uuid]:
    [undefined], the empty string and [0] are falsy. *)
Definition truthy_uuid (uuid : option UUID) : bool :=
  match uuid with
  | None => false
  | Some (UUIDString s) => negb (String.eqb s "")
  | Some (UUIDNumber n) => negb (N.eqb n 0)
  end.

(** JavaScript truthiness of an array object, for [!this._services]: an
    array is an object, and every object is truthy, the empty array too. *)
Definition truthy_array {A} (a : list A) : bool := true.

(** JavaScript truthiness of an optional string, for [filter.name]. *)
Definition truthy_string (s : option string) : bool :=
  match s with
  | None => false
  | Some s => negb (String.eqb s "")
  end.

(** ** The SimpleBLE binding *)

(** [interface Characteristic] of the binding. *)
Record Characteristic : Type := {
  characteristic_uuid : string;
  descriptors : list string
}.

(** [interface Service] of the binding. *)
Record Service : Type := {
  service_uuid : string;
  characteristics : list Characteristic
}.

(** [interface ManufacturerData] of the binding. *)
Record ManufacturerData : Type := {
  md_id : N;
  md_data : list byte
}.

(** What the binding reports for a peripheral handle returned by
    [simpleble_adapter_scan_get_results_handle]. *)
Record Peripheral : Type := {
  peripheral_identifier : string;
  peripheral_address : string;
  peripheral_manufacturer_data : list (option ManufacturerData)
}.

(** The calls into the binding that act on the adapter or on the
    peripheral. The model has one peripheral per device, so the handle
    argument is left out. The accessors of a scan result (identifier,
    address, manufacturer data, result handle) are fields of [Peripheral]
    and are not recorded. *)
Inductive BindingCall : Type :=
| simpleble_adapter_scan_start (adapter : nat)
| simpleble_adapter_scan_stop (adapter : nat)
| simpleble_adapter_scan_get_results_count (adapter : nat)
| simpleble_peripheral_connect
| simpleble_peripheral_disconnect
| simpleble_peripheral_set_callback_on_disconnected
| simpleble_peripheral_services_count
| simpleble_peripheral_services_get (index : nat)
| simpleble_peripheral_read (service characteristic : string)
| simpleble_peripheral_write_request (service characteristic : string) (data : list byte)
| simpleble_peripheral_write_command (service characteristic : string) (data : list byte)
| simpleble_peripheral_notify (service characteristic : string)
| simpleble_peripheral_unsubscribe (service characteristic : string)
| simpleble_peripheral_read_descriptor (service characteristic descriptor : string)
| simpleble_peripheral_write_descriptor (service characteristic descriptor : string)
    (data : list byte).

(** A stub binding: the answer of each call of [interface Bindings] that
    the GATT classes use. The two reads answer [Uint8Array | undefined]:
    the bytes of the typed array, or [None]. *)
Record Bindings : Type := {
  connect_result : bool;
  services_result : list Service;
  read_result : string -> string -> option (list byte);
  write_request_result : string -> string -> list byte -> bool;
  write_command_result : string -> string -> list byte -> bool;
  read_descriptor_result : string -> string -> string -> option (list byte);
  write_descriptor_result : string -> string -> string -> list byte -> bool
}.

(** ** Events *)

(** The objects events are dispatched on. *)
Inductive EventTarget : Type :=
| OnBluetooth
| OnDevice
| OnService (service : string)
| OnCharacteristic (service characteristic : string).

Record Event : Type := {
  event_target : EventTarget;
  event_type : string
}.

(** The callback registered by [connect] with
    [simpleble_peripheral_set_callback_on_disconnected]:
    [() => { this._connected = false; }]. *)
Inductive DisconnectedCallback : Type :=
| SetConnectedFalse.

(** What surrounds the GATT objects of one device: the trace of binding
    calls, the log of dispatched events and the callbacks the binding
    holds. *)
Record Ambient : Type := {
  calls : list BindingCall;
  events : list Event;
  disconnected_callback : option DisconnectedCallback;
  notify_callbacks : list (string * string)
}.

Definition quiet : Ambient :=
  {| calls := []; events := []; disconnected_callback := None; notify_callbacks := [] |}.

(** A call into the binding. *)
Definition call (c : BindingCall) (w : Ambient) : Ambient :=
  {| calls := calls w ++ [c];
     events := events w;
     disconnected_callback := disconnected_callback w;
     notify_callbacks := notify_callbacks w |}.

(** [target.dispatchEvent(new Event(type))]. *)
Definition dispatchEvent (target : EventTarget) (type : string) (w : Ambient) : Ambient :=
  {| calls := calls w;
     events := events w ++ [{| event_target := target; event_type := type |}];
     disconnected_callback := disconnected_callback w;
     notify_callbacks := notify_callbacks w |}.

(** The number of events of type [type] dispatched on [target] in a log. *)
Definition is_event (target : EventTarget) (type : string) (e : Event) : bool :=
  match event_target e, target with
  | OnBluetooth, OnBluetooth => String.eqb (event_type e) type
  | OnDevice, OnDevice => String.eqb (event_type e) type
  | OnService s, OnService s' => String.eqb s s' && String.eqb (event_type e) type
  | OnCharacteristic s c, OnCharacteristic s' c' =>
      String.eqb s s' && String.eqb c c' && String.eqb (event_type e) type
  | _, _ => false
  end.

Definition count_events (target : EventTarget) (type : string) (log : list Event) : nat :=
  length (List.filter (is_event target type) log).

(** ** GATT objects (gatt.ts) *)

(** [class BluetoothRemoteGATTDescriptor]. *)
Record BluetoothRemoteGATTDescriptor : Type := {
  descriptor_service : string;
  descriptor_char : string;
  descriptor_uuid : string;
  descriptor_value : option DataView
}.

(** [class BluetoothRemoteGATTCharacteristic]; [char_service] is the UUID
    of the owning service object. *)
Record BluetoothRemoteGATTCharacteristic : Type := {
  char_service : string;
  char_characteristic : Characteristic;
  char_uuid : string;
  char_value : option DataView;
  char_descriptors : list BluetoothRemoteGATTDescriptor
}.

(** [class BluetoothRemoteGATTService]. *)
Record BluetoothRemoteGATTService : Type := {
  svc_service : Service;
  svc_uuid : string;
  svc_chars : list BluetoothRemoteGATTCharacteristic
}.

(** [class BluetoothRemoteGATTServer]. *)
Record BluetoothRemoteGATTServer : Type := {
  _connected : bool;
  _services : list BluetoothRemoteGATTService
}.

(** [class BluetoothDevice]. *)
Record BluetoothDevice : Type := {
  _peripheral : Peripheral;
  _id : string;
  _name : string;
  _manufacturerData : BluetoothManufacturerData;
  _gatt : BluetoothRemoteGATTServer
}.

(** [get connected()]. *)
Definition connected (gatt : BluetoothRemoteGATTServer) : bool := _connected gatt.

(** The constructors. *)
Definition new_BluetoothRemoteGATTDescriptor (service char uuid : string)
    : BluetoothRemoteGATTDescriptor :=
  {| descriptor_service := service; descriptor_char := char;
     descriptor_uuid := uuid; descriptor_value := None |}.

(** The constructor also registers an empty ["serviceadded"] listener on
    the service, which dispatches nothing. *)
Definition new_BluetoothRemoteGATTCharacteristic (service : string)
    (characteristic : Characteristic) : BluetoothRemoteGATTCharacteristic :=
  {| char_service := service; char_characteristic := characteristic;
     char_uuid := characteristic_uuid characteristic; char_value := None;
     char_descriptors := [] |}.

(** The service constructor dispatches ["serviceadded"] on itself, on the
    device and on the hub. *)
Definition new_BluetoothRemoteGATTService (service : Service) (w : Ambient)
    : BluetoothRemoteGATTService * Ambient :=
  ({| svc_service := service; svc_uuid := service_uuid service; svc_chars := [] |},
   dispatchEvent OnBluetooth "serviceadded"
     (dispatchEvent OnDevice "serviceadded"
        (dispatchEvent (OnService (service_uuid service)) "serviceadded" w))).

Definition new_BluetoothRemoteGATTServer : BluetoothRemoteGATTServer :=
  {| _connected := false; _services := [] |}.

(** [new BluetoothDevice(bindings, peripheral, id, name, bluetooth,
    manufacturerData)]. *)
Definition new_BluetoothDevice (peripheral : Peripheral) (id name : string)
    (manufacturerData : BluetoothManufacturerData) : BluetoothDevice :=
  {| _peripheral := peripheral; _id := id; _name := name;
     _manufacturerData := manufacturerData;
     _gatt := new_BluetoothRemoteGATTServer |}.

(** *** Characteristic properties *)

Record BluetoothCharacteristicProperties : Type := {
  authenticatedSignedWrites : bool;
  broadcast : bool;
  indicate : bool;
  notify : bool;
  read : bool;
  reliableWrite : bool;
  write : bool;
  writeWithoutResponse : bool;
  writableAuxiliaries : bool
}.

(** [get properties()]. *)
Definition properties (this : BluetoothRemoteGATTCharacteristic)
    : BluetoothCharacteristicProperties :=
  {| authenticatedSignedWrites := false;
     broadcast := false;
     indicate := true;
     notify := true;
     read := true;
     reliableWrite := true;
     write := true;
     writeWithoutResponse := true;
     writableAuxiliaries := false |}.

(** ** GATT operations (gatt.ts) *)

Section Gatt.

(** The stub binding, and the UUID normalisers of [./common]
    ([getServiceUUID], [getCharacteristicUUID], [getDescriptorUUID]), which
    return the canonical UUID string or throw. *)
Variable bindings : Bindings.
Variable getServiceUUID : UUID -> Completion string.
Variable getCharacteristicUUID : UUID -> Completion string.
Variable getDescriptorUUID : UUID -> Completion string.

(** [array.filter((x) => x.uuid === normalise(uuid))]: the normaliser runs
    inside the callback, once per element, so it is not run at all on an
    empty array. *)
Definition filter_by_uuid {A} (uuid_of : A -> string)
    (normalise : UUID -> Completion string) (uuid : UUID) (array : list A)
    : Completion (list A) :=
  match array with
  | [] => Normal []
  | _ :: _ =>
      match normalise uuid with
      | Throw e => Throw e
      | Normal u => Normal (List.filter (fun x => String.eqb (uuid_of x) u) array)
      end
  end.

(** *** Descriptor *)

(** [BluetoothRemoteGATTDescriptor.readValue()]; what the binding
    returns, a [Uint8Array] or [undefined], is handed to
    [new DataView(data)] as it is. *)
Definition descriptor_readValue (gatt : BluetoothRemoteGATTServer)
    (this : BluetoothRemoteGATTDescriptor) (w : Ambient)
    : Completion DataView * BluetoothRemoteGATTDescriptor * Ambient :=
  if negb (connected gatt) then (Throw (Error "Device not connected"), this, w)
  else
    let w1 := call (simpleble_peripheral_read_descriptor (descriptor_service this)
                      (descriptor_char this) (descriptor_uuid this)) w in
    match read_descriptor_result bindings (descriptor_service this)
            (descriptor_char this) (descriptor_uuid this) with
    | None => (Throw (Error "Descriptor is no longer valid"), this, w1)
    | Some data =>
        match new_DataView (Uint8Array_of data) with
        | Throw e => (Throw e, this, w1)
        | Normal view =>
            (Normal view,
             {| descriptor_service := descriptor_service this;
                descriptor_char := descriptor_char this;
                descriptor_uuid := descriptor_uuid this;
                descriptor_value := Some view |},
             w1)
        end
    end.

(** [BluetoothRemoteGATTDescriptor.writeValue(value)]. *)
Definition descriptor_writeValue (gatt : BluetoothRemoteGATTServer)
    (value : BufferSource) (this : BluetoothRemoteGATTDescriptor) (w : Ambient)
    : Completion unit * BluetoothRemoteGATTDescriptor * Ambient :=
  let buffer := buffer_of value in
  let data := buffer in
  let w1 := call (simpleble_peripheral_write_descriptor (descriptor_service this)
                    (descriptor_char this) (descriptor_uuid this) data) w in
  if negb (write_descriptor_result bindings (descriptor_service this)
             (descriptor_char this) (descriptor_uuid this) data)
  then (Throw (Error "Descriptor is no longer valid"), this, w1)
  else
    let view := buffer in
    (Normal tt,
     {| descriptor_service := descriptor_service this;
        descriptor_char := descriptor_char this;
        descriptor_uuid := descriptor_uuid this;
        descriptor_value := Some view |},
     w1).

(** *** Characteristic *)

Definition set_char_value (value : option DataView)
    (this : BluetoothRemoteGATTCharacteristic) : BluetoothRemoteGATTCharacteristic :=
  {| char_service := char_service this;
     char_characteristic := char_characteristic this;
     char_uuid := char_uuid this;
     char_value := value;
     char_descriptors := char_descriptors this |}.

Definition set_char_descriptors (ds : list BluetoothRemoteGATTDescriptor)
    (this : BluetoothRemoteGATTCharacteristic) : BluetoothRemoteGATTCharacteristic :=
  {| char_service := char_service this;
     char_characteristic := char_characteristic this;
     char_uuid := char_uuid this;
     char_value := char_value this;
     char_descriptors := ds |}.

(** [_setValue(value, emit)]: the event goes to the characteristic, its
    service, the device and the hub, in this order. *)
Definition _setValue (value : option DataView) (emit : bool)
    (this : BluetoothRemoteGATTCharacteristic) (w : Ambient)
    : BluetoothRemoteGATTCharacteristic * Ambient :=
  let this' := set_char_value value this in
  if emit then
    (this',
     dispatchEvent OnBluetooth "characteristicvaluechanged"
       (dispatchEvent OnDevice "characteristicvaluechanged"
          (dispatchEvent (OnService (char_service this)) "characteristicvaluechanged"
             (dispatchEvent (OnCharacteristic (char_service this) (char_uuid this))
                "characteristicvaluechanged" w))))
  else (this', w).

(** [getDescriptors(uuid?)]. *)
Definition getDescriptors (gatt : BluetoothRemoteGATTServer) (uuid : option UUID)
    (this : BluetoothRemoteGATTCharacteristic) (w : Ambient)
    : Completion (list BluetoothRemoteGATTDescriptor)
      * BluetoothRemoteGATTCharacteristic * Ambient :=
  if negb (connected gatt) then (Throw (Error "Device not connected"), this, w)
  else
    let this1 :=
      if negb (truthy_array (char_descriptors this)) then
        set_char_descriptors
          (List.map (new_BluetoothRemoteGATTDescriptor (char_service this) (char_uuid this))
             (descriptors (char_characteristic this)))
          this
      else this in
    match uuid with
    | Some u =>
        if negb (truthy_uuid uuid) then (Normal (char_descriptors this1), this1, w)
        else
          match filter_by_uuid descriptor_uuid getDescriptorUUID u (char_descriptors this1) with
          | Throw e => (Throw e, this1, w)
          | Normal filtered =>
              if negb (Nat.eqb (length filtered) 1)
              then (Throw (Error "getDescriptors error: descriptor not found"), this1, w)
              else (Normal filtered, this1, w)
          end
    | None => (Normal (char_descriptors this1), this1, w)
    end.

(** [getDescriptor(uuid)]. *)
Definition getDescriptor (gatt : BluetoothRemoteGATTServer) (uuid : option UUID)
    (this : BluetoothRemoteGATTCharacteristic) (w : Ambient)
    : Completion BluetoothRemoteGATTDescriptor
      * BluetoothRemoteGATTCharacteristic * Ambient :=
  if negb (connected gatt) then (Throw (Error "Device not connected"), this, w)
  else if negb (truthy_uuid uuid) then (Throw (TypeError "No descriptor specified"), this, w)
  else
    match getDescriptors gatt uuid this w with
    | (Throw e, this1, w1) => (Throw e, this1, w1)
    | (Normal ds, this1, w1) =>
        match ds with
        | [] => (Throw (Error "Descriptor not found"), this1, w1)
        | d :: _ => (Normal d, this1, w1)
        end
    end.

(** [readValue()]; what the binding returns, a [Uint8Array] or
    [undefined], is handed to [new DataView(buffer)] as it is. *)
Definition readValue (gatt : BluetoothRemoteGATTServer)
    (this : BluetoothRemoteGATTCharacteristic) (w : Ambient)
    : Completion DataView * BluetoothRemoteGATTCharacteristic * Ambient :=
  let w1 := call (simpleble_peripheral_read (char_service this) (char_uuid this)) w in
  match read_result bindings (char_service this) (char_uuid this) with
  | None => (Throw (Error "Characteristic is no longer valid"), this, w1)
  | Some buffer =>
      match new_DataView (Uint8Array_of buffer) with
      | Throw e => (Throw e, this, w1)
      | Normal view =>
          let '(this', w2) := _setValue (Some view) true this w1 in
          (Normal view, this', w2)
      end
  end.

(** [writeValueWithResponse(value)]. *)
Definition writeValueWithResponse (gatt : BluetoothRemoteGATTServer)
    (value : BufferSource) (this : BluetoothRemoteGATTCharacteristic) (w : Ambient)
    : Completion unit * BluetoothRemoteGATTCharacteristic * Ambient :=
  let buffer := buffer_of value in
  let data := buffer in
  let w1 := call (simpleble_peripheral_write_command (char_service this)
                    (char_uuid this) data) w in
  if negb (write_command_result bindings (char_service this) (char_uuid this) data)
  then (Throw (Error "Error while writing a command to a characteristic"), this, w1)
  else
    let view := buffer in
    let '(this', w2) := _setValue (Some view) false this w1 in
    (Normal tt, this', w2).

(** [writeValue(value)]: an alias of [writeValueWithResponse]. *)
Definition writeValue (gatt : BluetoothRemoteGATTServer)
    (value : BufferSource) (this : BluetoothRemoteGATTCharacteristic) (w : Ambient)
    : Completion unit * BluetoothRemoteGATTCharacteristic * Ambient :=
  writeValueWithResponse gatt value this w.

(** [writeValueWithoutResponse(value)]. *)
Definition writeValueWithoutResponse (gatt : BluetoothRemoteGATTServer)
    (value : BufferSource) (this : BluetoothRemoteGATTCharacteristic) (w : Ambient)
    : Completion unit * BluetoothRemoteGATTCharacteristic * Ambient :=
  let buffer := buffer_of value in
  let data := buffer in
  let w1 := call (simpleble_peripheral_write_request (char_service this)
                    (char_uuid this) data) w in
  if negb (write_request_result bindings (char_service this) (char_uuid this) data)
  then (Throw (Error "Error while writing a request to a characteristic"), this, w1)
  else
    let view := buffer in
    let '(this', w2) := _setValue (Some view) false this w1 in
    (Normal tt, this', w2).

(** [startNotifications()], which resolves to [this]: the callback given
    to the binding is kept in [notify_callbacks] under the service and
    characteristic UUIDs. *)
Definition startNotifications (gatt : BluetoothRemoteGATTServer)
    (this : BluetoothRemoteGATTCharacteristic) (w : Ambient)
    : Completion BluetoothRemoteGATTCharacteristic
      * BluetoothRemoteGATTCharacteristic * Ambient :=
  if negb (connected gatt) then (Throw (Error "Device not connected"), this, w)
  else
    let w1 := call (simpleble_peripheral_notify (char_service this) (char_uuid this)) w in
    (Normal this, this,
     {| calls := calls w1; events := events w1;
        disconnected_callback := disconnected_callback w1;
        notify_callbacks := notify_callbacks w1 ++ [(char_service this, char_uuid this)] |}).

(** The callback registered by [startNotifications], run by the binding
    on a native delivery of [data] (a [Uint8Array] over its own buffer). *)
Definition notification_callback (data : list byte)
    (this : BluetoothRemoteGATTCharacteristic) (w : Ambient)
    : BluetoothRemoteGATTCharacteristic * Ambient :=
  let w1 := dispatchEvent (OnCharacteristic (char_service this) (char_uuid this)) "notify" w in
  let arrayBuffer := data in
  let view := arrayBuffer in
  _setValue (Some view) true this w1.

(** [stopNotifications()]. *)
Definition stopNotifications (gatt : BluetoothRemoteGATTServer)
    (this : BluetoothRemoteGATTCharacteristic) (w : Ambient)
    : Completion unit * BluetoothRemoteGATTCharacteristic * Ambient :=
  if negb (connected gatt) then (Throw (Error "Device not connected"), this, w)
  else
    let w1 := call (simpleble_peripheral_unsubscribe (char_service this) (char_uuid this)) w in
    (Normal tt, this, w1).

(** *** Service *)

Definition set_svc_chars (cs : list BluetoothRemoteGATTCharacteristic)
    (this : BluetoothRemoteGATTService) : BluetoothRemoteGATTService :=
  {| svc_service := svc_service this; svc_uuid := svc_uuid this; svc_chars := cs |}.

(** [getCharacteristics(uuid?)]: the loop over the native
    characteristics pushes onto [_chars] on every call. *)
Definition getCharacteristics (gatt : BluetoothRemoteGATTServer) (uuid : option UUID)
    (this : BluetoothRemoteGATTService) (w : Ambient)
    : Completion (list BluetoothRemoteGATTCharacteristic)
      * BluetoothRemoteGATTService * Ambient :=
  if negb (connected gatt) then (Throw (Error "Device not connected"), this, w)
  else
    let this1 :=
      set_svc_chars
        (svc_chars this ++
         List.map (new_BluetoothRemoteGATTCharacteristic (svc_uuid this))
           (characteristics (svc_service this)))
        this in
    match uuid with
    | Some u =>
        if negb (truthy_uuid uuid) then (Normal (svc_chars this1), this1, w)
        else
          match getCharacteristicUUID u with
          | Throw e => (Throw e, this1, w)
          | Normal charUuid =>
              let filtered :=
                List.filter (fun char => String.eqb (char_uuid char) charUuid)
                  (svc_chars this1) in
              if negb (Nat.eqb (length filtered) 1)
              then (Throw (Error "Characteristic not found"), this1, w)
              else (Normal filtered, this1, w)
          end
    | None => (Normal (svc_chars this1), this1, w)
    end.

(** [getCharacteristic(uuid)]. *)
Definition getCharacteristic (gatt : BluetoothRemoteGATTServer) (uuid : option UUID)
    (this : BluetoothRemoteGATTService) (w : Ambient)
    : Completion BluetoothRemoteGATTCharacteristic
      * BluetoothRemoteGATTService * Ambient :=
  if negb (connected gatt) then (Throw (Error "Device not connected"), this, w)
  else if negb (truthy_uuid uuid)
  then (Throw (TypeError "No characteristic specified"), this, w)
  else
    match getCharacteristics gatt uuid this w with
    | (Throw e, this1, w1) => (Throw e, this1, w1)
    | (Normal chars, this1, w1) =>
        match chars with
        | [] => (Throw (Error "Characteristic not found"), this1, w1)
        | c :: _ => (Normal c, this1, w1)
        end
    end.

(** *** Server *)

(** The body of [if (!this._services) { ... }] in [getPrimaryServices]:
    [simpleble_peripheral_services_count], then for each index
    [simpleble_peripheral_services_get], a new service object, a push. *)
Fixpoint discover_services (handles : list Service) (i : nat)
    (cache : list BluetoothRemoteGATTService) (w : Ambient)
    : list BluetoothRemoteGATTService * Ambient :=
  match handles with
  | [] => (cache, w)
  | handle :: rest =>
      let w1 := call (simpleble_peripheral_services_get i) w in
      let '(service, w2) := new_BluetoothRemoteGATTService handle w1 in
      discover_services rest (S i) (cache ++ [service]) w2
  end.

(** [connect()], which resolves to [this]. *)
Definition connect (this : BluetoothRemoteGATTServer) (w : Ambient)
    : Completion BluetoothRemoteGATTServer * BluetoothRemoteGATTServer * Ambient :=
  if connected this then (Throw (Error "Device already connected"), this, w)
  else
    let w1 := call simpleble_peripheral_connect w in
    if negb (connect_result bindings)
    then (Throw (Error "Device refused to connect"), this, w1)
    else
      let this' := {| _connected := true; _services := [] |} in
      let w2 := dispatchEvent OnDevice "gattserverdisconnected" w1 in
      let w3 := dispatchEvent OnBluetooth "gattserverdisconnected" w2 in
      let w4 := call simpleble_peripheral_set_callback_on_disconnected w3 in
      (Normal this', this',
       {| calls := calls w4; events := events w4;
          disconnected_callback := Some SetConnectedFalse;
          notify_callbacks := notify_callbacks w4 |}).

(** The body of a registered disconnection callback. *)
Definition run_disconnected_callback (cb : DisconnectedCallback)
    (this : BluetoothRemoteGATTServer) : BluetoothRemoteGATTServer :=
  match cb with
  | SetConnectedFalse => {| _connected := false; _services := _services this |}
  end.

(** A native disconnection: the binding runs the registered callback, if
    there is one. *)
Definition native_disconnected (this : BluetoothRemoteGATTServer) (w : Ambient)
    : BluetoothRemoteGATTServer :=
  match disconnected_callback w with
  | Some cb => run_disconnected_callback cb this
  | None => this
  end.

(** [disconnect()]. *)
Definition disconnect (this : BluetoothRemoteGATTServer) (w : Ambient)
    : BluetoothRemoteGATTServer * Ambient :=
  let w1 := call simpleble_peripheral_disconnect w in
  ({| _connected := false; _services := _services this |}, w1).

(** [getPrimaryServices(uuid?)]. *)
Definition getPrimaryServices (uuid : option UUID)
    (this : BluetoothRemoteGATTServer) (w : Ambient)
    : Completion (list BluetoothRemoteGATTService)
      * BluetoothRemoteGATTServer * Ambient :=
  if negb (connected this) then (Throw (Error "Device not connected"), this, w)
  else
    let '(this1, w1) :=
      if negb (truthy_array (_services this)) then
        let w0 := call simpleble_peripheral_services_count w in
        let '(cache, w') :=
          discover_services (services_result bindings) 0 (_services this) w0 in
        ({| _connected := _connected this; _services := cache |}, w')
      else (this, w) in
    match uuid with
    | Some u =>
        if negb (truthy_uuid uuid) then (Normal (_services this1), this1, w1)
        else
          match filter_by_uuid svc_uuid getServiceUUID u (_services this1) with
          | Throw e => (Throw e, this1, w1)
          | Normal filtered =>
              if negb (Nat.eqb (length filtered) 1)
              then (Throw (Error "Service not found"), this1, w1)
              else (Normal filtered, this1, w1)
          end
    | None => (Normal (_services this1), this1, w1)
    end.

(** [getPrimaryService(uuid)]. *)
Definition getPrimaryService (uuid : option UUID)
    (this : BluetoothRemoteGATTServer) (w : Ambient)
    : Completion BluetoothRemoteGATTService * BluetoothRemoteGATTServer * Ambient :=
  if negb (connected this) then (Throw (Error "Device not connected"), this, w)
  else if negb (truthy_uuid uuid) then (Throw (TypeError "No service specified"), this, w)
  else
    match getPrimaryServices uuid this w with
    | (Throw e, this1, w1) => (Throw e, this1, w1)
    | (Normal services, this1, w1) =>
        match services with
        | [] => (Throw (Error "Service not found"), this1, w1)
        | s :: _ => (Normal s, this1, w1)
        end
    end.

End Gatt.

(** ** The hub (class Bluetooth) *)

(** [RequestDeviceInfo]: what a filter sees of a scan result. *)
Record RequestDeviceInfo : Type := {
  info_name : string;
  info_address : string;
  info_manufacturerData : BluetoothManufacturerData
}.

(** [BluetoothLEScanFilter]. *)
Record BluetoothLEScanFilter : Type := {
  filter_name : option string;
  filter_namePrefix : option string;
  filter_services : option (list UUID);
  filter_manufacturerData : option (list BluetoothManufacturerDataFilter)
}.

(** An [AbortSignal], as it is when the operation starts. *)
Record AbortSignal : Type := {
  aborted : bool
}.

(** [RequestDeviceOptions]; a custom [filter] is a predicate that may
    throw. *)
Record RequestDeviceOptions : Type := {
  opt_filters : option (list BluetoothLEScanFilter);
  opt_filter : option (RequestDeviceInfo -> Completion bool);
  opt_timeout : option N;
  opt_signal : option AbortSignal
}.

(** [class Bluetooth]: the selected adapter, the registry of devices and
    the trace of calls on the adapter. *)
Record Bluetooth : Type := {
  _adapter : nat;
  _devices : list BluetoothDevice;
  hub_calls : list BindingCall
}.

Definition hub_call (c : BindingCall) (this : Bluetooth) : Bluetooth :=
  {| _adapter := _adapter this; _devices := _devices this;
     hub_calls := hub_calls this ++ [c] |}.

Definition push_devices (ds : list BluetoothDevice) (this : Bluetooth) : Bluetooth :=
  {| _adapter := _adapter this; _devices := _devices this ++ ds;
     hub_calls := hub_calls this |}.

(** [_filterDevice(filters, info, _validServices)]. *)
Fixpoint _filterDevice (filters : list BluetoothLEScanFilter) (info : RequestDeviceInfo)
    : Completion bool :=
  match filters with
  | [] => Normal false
  | filter :: rest =>
      if truthy_string (filter_name filter)
         && negb (String.eqb (default "" (filter_name filter)) (info_name info))
      then _filterDevice rest info
      else if truthy_string (filter_namePrefix filter)
              && (negb (truthy_string (Some (info_name info)))
                  || (String.length (info_name info)
                      <? String.length (default "" (filter_namePrefix filter)))%nat)
      then _filterDevice rest info
      else if truthy_string (filter_namePrefix filter)
              && negb (String.prefix (default "" (filter_namePrefix filter)) (info_name info))
      then _filterDevice rest info
      else
        match
          match filter_manufacturerData filter with
          | None => Normal true
          | Some mds => checkManufacturerData (info_manufacturerData info) mds
          end
        with
        | Throw e => Throw e
        | Normal false => _filterDevice rest info
        | Normal true =>
            match filter_services filter with
            | Some _ => Throw (Error "Filtering by services is not supported yet")
            | None => Normal true
            end
        end
  end.

(** [_createFilter(options)]. *)
Definition _createFilter (options : RequestDeviceOptions)
    : Completion (RequestDeviceInfo -> Completion bool) :=
  match opt_filters options, opt_filter options with
  | None, None => Throw (TypeError "filter or filters must be given")
  | _, Some cb => Normal cb
  | Some filters, None => Normal (fun info => _filterDevice filters info)
  end.

(** The manufacturer data map built for a scan result:
    [for (j < count) { data = ..._manufacturer_data_get(d, j);
    if (data) manufacturerData.set(data.id, new DataView(data.data.buffer)) }]. *)
Definition collect_manufacturerData (d : Peripheral) : BluetoothManufacturerData :=
  fold_left
    (fun (m : BluetoothManufacturerData) data =>
       match data with
       | Some x => <[md_id x := md_data x]> m
       | None => m
       end)
    (peripheral_manufacturer_data d) ∅.

(** The loop over the scan results in [_request]. *)
Fixpoint request_results (filterCb : RequestDeviceInfo -> Completion bool)
    (singleDevice : bool) (results : list Peripheral) (devices : list BluetoothDevice)
    : Completion (list BluetoothDevice) :=
  match results with
  | [] => Normal devices
  | d :: rest =>
      let id := peripheral_identifier d in
      let address := peripheral_address d in
      let manufacturerData := collect_manufacturerData d in
      match filterCb {| info_name := id; info_address := address;
                        info_manufacturerData := manufacturerData |} with
      | Throw e => Throw e
      | Normal found =>
          if found then
            let device := new_BluetoothDevice d address id manufacturerData in
            let devices' := devices ++ [device] in
            if singleDevice then Normal devices'
            else request_results filterCb singleDevice rest devices'
          else request_results filterCb singleDevice rest devices
      end
  end.

(** [_request(options, singleDevice)]; [results] are the scan results the
    adapter holds when the scan is stopped. *)
Definition _request (results : list Peripheral) (options : RequestDeviceOptions)
    (singleDevice : bool) (this : Bluetooth)
    : Completion (list BluetoothDevice) * Bluetooth :=
  match opt_filters options, opt_filter options with
  | None, None => (Throw (TypeError "filter or filters must be given"), this)
  | _, _ =>
      match _createFilter options with
      | Throw e => (Throw e, this)
      | Normal filterCb =>
          let this1 := hub_call (simpleble_adapter_scan_start (_adapter this)) this in
          let this2 := hub_call (simpleble_adapter_scan_stop (_adapter this)) this1 in
          let this3 :=
            hub_call (simpleble_adapter_scan_get_results_count (_adapter this)) this2 in
          (request_results filterCb singleDevice results [], this3)
      end
  end.

(** Modelled from the spec: [abortable] of [./common] is not among the
    sources. "If canceled before completion, the in-flight operation is
    abandoned and a cancellation error surfaces to the caller"; [fires]
    tells whether the signal fires before the promise settles. *)
Definition abortable {A} (p : Completion A) (fires : bool) : Completion A :=
  if fires then Throw (DOMException "Operation was canceled") else p.

(** [requestDevice(options)]. *)
Definition requestDevice (results : list Peripheral) (fires : bool)
    (options : RequestDeviceOptions) (this : Bluetooth)
    : Completion BluetoothDevice * Bluetooth :=
  let '(p, this1) := _request results options true this in
  let awaited :=
    match opt_signal options with
    | Some _ => abortable p fires
    | None => p
    end in
  match awaited with
  | Throw e => (Throw e, this1)
  | Normal devices =>
      match devices with
      | [] => (Throw (DOMException "requestDevice error: no devices found"), this1)
      | device :: _ => (Normal device, push_devices [device] this1)
      end
  end.

(** [requestDevices(options)]. *)
Definition requestDevices (results : list Peripheral) (fires : bool)
    (options : RequestDeviceOptions) (this : Bluetooth)
    : Completion (list BluetoothDevice) * Bluetooth :=
  let '(p, this1) := _request results options true this in
  let awaited :=
    match opt_signal options with
    | Some _ => abortable p fires
    | None => p
    end in
  match awaited with
  | Throw e => (Throw e, this1)
  | Normal devices =>
      match devices with
      | [] => (Throw (DOMException "requestDevices error: no devices found"), this1)
      | _ :: _ => (Normal devices, push_devices devices this1)
      end
  end.

(** *** Continuous scan *)

(** The local state of the generator [scan]: the flag [done], the array
    [ids], whether the ["abort"] listener is still registered on the
    signal, and the calls made on the adapter. *)
Record ScanState : Type := {
  scan_done : bool;
  scan_ids : list string;
  scan_listener : bool;
  scan_calls : list BindingCall
}.

Definition scan_call (c : BindingCall) (st : ScanState) : ScanState :=
  {| scan_done := scan_done st; scan_ids := scan_ids st;
     scan_listener := scan_listener st; scan_calls := scan_calls st ++ [c] |}.

Definition set_scan_ids (ids : list string) (st : ScanState) : ScanState :=
  {| scan_done := scan_done st; scan_ids := ids;
     scan_listener := scan_listener st; scan_calls := scan_calls st |}.

(** The listener given to [signal.addEventListener("abort", ...)]:
    [() => { done = false; }]. *)
Definition abort_listener (st : ScanState) : ScanState :=
  {| scan_done := false; scan_ids := scan_ids st;
     scan_listener := scan_listener st; scan_calls := scan_calls st |}.

(** The signal fires: the listener runs if it is registered, and, being
    registered with [{ once: true }], is removed. *)
Definition signal_abort (st : ScanState) : ScanState :=
  if scan_listener st then
    let st' := abort_listener st in
    {| scan_done := scan_done st'; scan_ids := scan_ids st';
       scan_listener := false; scan_calls := scan_calls st' |}
  else st.

(** [ids.includes(id)]. *)
Definition includes (ids : list string) (id : string) : bool :=
  existsb (String.eqb id) ids.

(** The loop over the scan results of one cycle in [scan]: the devices
    yielded, the array [ids] afterwards and the exception thrown, if
    any. *)
Fixpoint scan_results (filterCb : RequestDeviceInfo -> Completion bool)
    (results : list Peripheral) (ids : list string)
    : list BluetoothDevice * list string * option Exn :=
  match results with
  | [] => ([], ids, None)
  | d :: rest =>
      let id := peripheral_identifier d in
      if includes ids id then scan_results filterCb rest ids
      else
        let address := peripheral_address d in
        let manufacturerData := collect_manufacturerData d in
        match filterCb {| info_name := id; info_address := address;
                          info_manufacturerData := manufacturerData |} with
        | Throw e => ([], ids, Some e)
        | Normal found =>
            if found then
              let device := new_BluetoothDevice d address id manufacturerData in
              let '(yielded, ids', e) := scan_results filterCb rest (ids ++ [id]) in
              (device :: yielded, ids', e)
            else scan_results filterCb rest ids
        end
  end.

(** What the environment does while the generator waits in
    [await delay(timeout)]: the signal fires, or the delay elapses with
    the adapter holding [results]. *)
Inductive ScanTick : Type :=
| AbortFires
| CycleResults (results : list Peripheral).

(** How a run of the generator over finitely many ticks ends: still
    waiting in a delay, returned (the [while] condition failed and the
    sequence is over), or thrown. *)
Inductive ScanEnding : Type :=
| Suspended
| Returned
| Thrown (e : Exn).

(** The body of [while (!done)] from the point after
    [simpleble_adapter_scan_start], over the ticks that follow; when a
    cycle is over the condition is tested and the next scan started. *)
Fixpoint scan_wait (adapter : nat) (filterCb : RequestDeviceInfo -> Completion bool)
    (ticks : list ScanTick) (st : ScanState)
    : list BluetoothDevice * ScanState * ScanEnding :=
  match ticks with
  | [] => ([], st, Suspended)
  | AbortFires :: rest => scan_wait adapter filterCb rest (signal_abort st)
  | CycleResults results :: rest =>
      let st1 := scan_call (simpleble_adapter_scan_stop adapter) st in
      let st2 := scan_call (simpleble_adapter_scan_get_results_count adapter) st1 in
      match scan_results filterCb results (scan_ids st2) with
      | (yielded, ids', Some e) => (yielded, set_scan_ids ids' st2, Thrown e)
      | (yielded, ids', None) =>
          let st3 := set_scan_ids ids' st2 in
          if negb (scan_done st3) then
            let st4 := scan_call (simpleble_adapter_scan_start adapter) st3 in
            let '(yielded', st', ending) := scan_wait adapter filterCb rest st4 in
            (yielded ++ yielded', st', ending)
          else (yielded, st3, Returned)
      end
  end.

(** [scan(options)] run over [ticks]: the devices yielded in order, the
    final state and the ending. *)
Definition scan (options : RequestDeviceOptions) (ticks : list ScanTick)
    (this : Bluetooth) : list BluetoothDevice * ScanState * ScanEnding :=
  let st0 := {| scan_done := false; scan_ids := []; scan_listener := false;
                scan_calls := hub_calls this |} in
  match opt_filters options, opt_filter options with
  | None, None => ([], st0, Thrown (TypeError "filter or filters must be given"))
  | _, _ =>
      if match opt_signal options with Some signal => aborted signal | None => false end
      then ([], st0, Thrown (DOMException "Operation was canceled"))
      else
        match _createFilter options with
        | Throw e => ([], st0, Thrown e)
        | Normal filterCb =>
            let st1 :=
              {| scan_done := false; scan_ids := [];
                 scan_listener :=
                   match opt_signal options with Some _ => true | None => false end;
                 scan_calls := hub_calls this |} in
            if negb (scan_done st1) then
              scan_wait (_adapter this) filterCb ticks
                (scan_call (simpleble_adapter_scan_start (_adapter this)) st1)
            else ([], st1, Returned)
        end
  end.

(** ** Predicates used in the statements *)

(** A filter entry matches a candidate, in the words of the
    specification: the company is in the candidate's map and, when a
    [dataPrefix] is given, every byte of it equals the byte at the same
    offset of the candidate's data. *)
Definition entry_matches (map : BluetoothManufacturerData)
    (filter : BluetoothManufacturerDataFilter) : Prop :=
  exists view,
    map !! companyIdentifier filter = Some view
    /\ match dataPrefix filter with
       | None => True
       | Some prefix =>
           forall (k : nat) (b : byte),
             viewed_bytes prefix !! k = Some b -> view !! k = Some b
       end.

(** Every prefix of a filter entry covers its whole underlying buffer and
    is not longer than the data it is compared with. *)
Definition prefixes_fit (map : BluetoothManufacturerData)
    (filters : list BluetoothManufacturerDataFilter) : Prop :=
  forall filter view prefix,
    In filter filters ->
    map !! companyIdentifier filter = Some view ->
    dataPrefix filter = Some prefix ->
    viewed_bytes prefix = buffer_of prefix
    /\ length (buffer_of prefix) <= length view.

(** The four [characteristicvaluechanged] events of one bubbling: on the
    characteristic, its service, the device and the hub. *)
Definition change_events (this : BluetoothRemoteGATTCharacteristic) : list Event :=
  [ {| event_target := OnCharacteristic (char_service this) (char_uuid this);
       event_type := "characteristicvaluechanged" |};
    {| event_target := OnService (char_service this);
       event_type := "characteristicvaluechanged" |};
    {| event_target := OnDevice; event_type := "characteristicvaluechanged" |};
    {| event_target := OnBluetooth; event_type := "characteristicvaluechanged" |} ].

(** A log holds exactly one [characteristicvaluechanged] event for each
    of the four levels, and no other event of that type. *)
Definition one_change_event_per_level (this : BluetoothRemoteGATTCharacteristic)
    (log : list Event) : Prop :=
  count_events (OnCharacteristic (char_service this) (char_uuid this))
    "characteristicvaluechanged" log = 1
  /\ count_events (OnService (char_service this)) "characteristicvaluechanged" log = 1
  /\ count_events OnDevice "characteristicvaluechanged" log = 1
  /\ count_events OnBluetooth "characteristicvaluechanged" log = 1
  /\ length (List.filter
               (fun e => String.eqb (event_type e) "characteristicvaluechanged") log) = 4.

(** ** Sample inputs *)

Module Samples.

(** A normaliser that keeps strings and maps numbers to the empty
    string; enough for inputs that are canonical already. *)
Definition keep_uuid (uuid : UUID) : Completion string :=
  match uuid with
  | UUIDString s => Normal s
  | UUIDNumber _ => Normal ""
  end.

Definition model_number : Characteristic :=
  {| characteristic_uuid := "2a24"; descriptors := ["2902"] |}.

Definition device_information : Service :=
  {| service_uuid := "180a"; characteristics := [model_number] |}.

(** A binding that accepts every call and exposes one service. *)
Definition accepting : Bindings :=
  {| connect_result := true;
     services_result := [device_information];
     read_result := fun _ _ => Some [x42; x42; x43];
     write_request_result := fun _ _ _ => true;
     write_command_result := fun _ _ _ => true;
     read_descriptor_result := fun _ _ _ => Some [x01; x00];
     write_descriptor_result := fun _ _ _ _ => true |}.

Definition model_number_char : BluetoothRemoteGATTCharacteristic :=
  new_BluetoothRemoteGATTCharacteristic "180a" model_number.

Definition cccd : BluetoothRemoteGATTDescriptor :=
  new_BluetoothRemoteGATTDescriptor "180a" "2a24" "2902".

Definition device_information_svc : BluetoothRemoteGATTService :=
  {| svc_service := device_information; svc_uuid := "180a"; svc_chars := [] |}.

Definition connected_server : BluetoothRemoteGATTServer :=
  {| _connected := true; _services := [] |}.

(** Scan results. *)
Definition widget_a : Peripheral :=
  {| peripheral_identifier := "Widget-A"; peripheral_address := "AA:00";
     peripheral_manufacturer_data := [] |}.

Definition widget_b : Peripheral :=
  {| peripheral_identifier := "Widget-B"; peripheral_address := "BB:00";
     peripheral_manufacturer_data := [] |}.

(** The same peripheral before and after its name is known. *)
Definition unnamed_c : Peripheral :=
  {| peripheral_identifier := ""; peripheral_address := "CC:00";
     peripheral_manufacturer_data := [] |}.

Definition named_c : Peripheral :=
  {| peripheral_identifier := "Widget-C"; peripheral_address := "CC:00";
     peripheral_manufacturer_data := [] |}.

Definition widget_prefix : RequestDeviceOptions :=
  {| opt_filters :=
       Some [{| filter_name := None; filter_namePrefix := Some "Widget";
                filter_services := None; filter_manufacturerData := None |}];
     opt_filter := None; opt_timeout := None; opt_signal := None |}.

Definition accept_all (with_signal : bool) : RequestDeviceOptions :=
  {| opt_filters := None;
     opt_filter := Some (fun _ => Normal true);
     opt_timeout := None;
     opt_signal := if with_signal then Some {| aborted := false |} else None |}.

Definition hub : Bluetooth :=
  {| _adapter := 0; _devices := []; hub_calls := [] |}.

(** Manufacturer data: company 0x004C. *)
Definition apple : N := 76.

Definition beacon_filter : BluetoothManufacturerDataFilter :=
  {| companyIdentifier := apple; dataPrefix := Some (ArrayBuffer [x02; x15]) |}.

Definition any_apple : BluetoothManufacturerDataFilter :=
  {| companyIdentifier := apple; dataPrefix := None |}.

Definition data_of (bytes : list byte) : BluetoothManufacturerData :=
  <[apple := bytes]> ∅.

End Samples.

(** ** Included services (gatt.ts) *)

(** [BluetoothRemoteGATTService.getIncludedServices(uuid?)]. The array
    [this._services] of the service object is passed and returned
    explicitly as [included]; the constructor sets it to the empty
    array. *)
Definition getIncludedServices (bindings : Bindings)
    (getServiceUUID : UUID -> Completion string)
    (gatt : BluetoothRemoteGATTServer) (uuid : option UUID)
    (included : list BluetoothRemoteGATTService) (w : Ambient)
    : Completion (list BluetoothRemoteGATTService)
      * list BluetoothRemoteGATTService * Ambient :=
  if negb (connected gatt) then (Throw (Error "Device not connected"), included, w)
  else
    let '(included1, w1) :=
      if negb (truthy_array included) then
        let w0 := call simpleble_peripheral_services_count w in
        discover_services (services_result bindings) 0 included w0
      else (included, w) in
    match uuid with
    | Some u =>
        if negb (truthy_uuid uuid) then (Normal included1, included1, w1)
        else
          match filter_by_uuid svc_uuid getServiceUUID u included1 with
          | Throw e => (Throw e, included1, w1)
          | Normal filtered =>
              if negb (Nat.eqb (length filtered) 1)
              then (Throw (Error "getIncludedServices error: service not found"),
                    included1, w1)
              else (Normal filtered, included1, w1)
          end
    | None => (Normal included1, included1, w1)
    end.

(** [BluetoothRemoteGATTService.getIncludedService(service)]. *)
Definition getIncludedService (bindings : Bindings)
    (getServiceUUID : UUID -> Completion string)
    (gatt : BluetoothRemoteGATTServer) (service : option UUID)
    (included : list BluetoothRemoteGATTService) (w : Ambient)
    : Completion BluetoothRemoteGATTService
      * list BluetoothRemoteGATTService * Ambient :=
  if negb (connected gatt) then (Throw (Error "Device not connected"), included, w)
  else if negb (truthy_uuid service)
  then (Throw (TypeError "No service specified"), included, w)
  else
    match getIncludedServices bindings getServiceUUID gatt service included w with
    | (Throw e, included1, w1) => (Throw e, included1, w1)
    | (Normal services, included1, w1) =>
        match services with
        | [s] => (Normal s, included1, w1)
        | _ => (Throw (Error "Service not found"), included1, w1)
        end
    end.

(** ** Sequences of calls *)

(** What can happen to a GATT server: a method call, with the binding
    that answers it, or a native disconnection. *)
Inductive ServerCall : Type :=
| CallConnect (bindings : Bindings)
| CallDisconnect
| NativeDisconnected
| CallGetPrimaryServices (bindings : Bindings) (uuid : option UUID)
| CallGetPrimaryService (bindings : Bindings) (uuid : option UUID).

Definition server_step (getServiceUUID : UUID -> Completion string)
    (sw : BluetoothRemoteGATTServer * Ambient) (c : ServerCall)
    : BluetoothRemoteGATTServer * Ambient :=
  let '(this, w) := sw in
  match c with
  | CallConnect bindings =>
      let '(_, this', w') := connect bindings this w in (this', w')
  | CallDisconnect => disconnect this w
  | NativeDisconnected => (native_disconnected this w, w)
  | CallGetPrimaryServices bindings uuid =>
      let '(_, this', w') := getPrimaryServices bindings getServiceUUID uuid this w in
      (this', w')
  | CallGetPrimaryService bindings uuid =>
      let '(_, this', w') := getPrimaryService bindings getServiceUUID uuid this w in
      (this', w')
  end.

(** The server and its surroundings after a sequence of calls. *)
Definition server_run (getServiceUUID : UUID -> Completion string)
    (trace : list ServerCall) (sw : BluetoothRemoteGATTServer * Ambient)
    : BluetoothRemoteGATTServer * Ambient :=
  fold_left (server_step getServiceUUID) trace sw.

(** What can happen to a characteristic: a method call, or a native
    notification delivered to the callback of [startNotifications]. *)
Inductive CharacteristicCall : Type :=
| CallReadValue
| CallWriteValue (value : BufferSource)
| CallWriteValueWithResponse (value : BufferSource)
| CallWriteValueWithoutResponse (value : BufferSource)
| CallStartNotifications
| CallStopNotifications
| CallGetDescriptors (uuid : option UUID)
| CallGetDescriptor (uuid : option UUID)
| NativeNotification (data : list byte).

(** One call on a characteristic, with the binding that answers it and
    the state of the server at that time. *)
Definition characteristic_step (getDescriptorUUID : UUID -> Completion string)
    (cw : BluetoothRemoteGATTCharacteristic * Ambient)
    (c : Bindings * BluetoothRemoteGATTServer * CharacteristicCall)
    : BluetoothRemoteGATTCharacteristic * Ambient :=
  let '(this, w) := cw in
  let '(bindings, gatt, op) := c in
  match op with
  | CallReadValue =>
      let '(_, this', w') := readValue bindings gatt this w in (this', w')
  | CallWriteValue value =>
      let '(_, this', w') := writeValue bindings gatt value this w in (this', w')
  | CallWriteValueWithResponse value =>
      let '(_, this', w') := writeValueWithResponse bindings gatt value this w in
      (this', w')
  | CallWriteValueWithoutResponse value =>
      let '(_, this', w') := writeValueWithoutResponse bindings gatt value this w in
      (this', w')
  | CallStartNotifications =>
      let '(_, this', w') := startNotifications gatt this w in (this', w')
  | CallStopNotifications =>
      let '(_, this', w') := stopNotifications gatt this w in (this', w')
  | CallGetDescriptors uuid =>
      let '(_, this', w') := getDescriptors getDescriptorUUID gatt uuid this w in
      (this', w')
  | CallGetDescriptor uuid =>
      let '(_, this', w') := getDescriptor getDescriptorUUID gatt uuid this w in
      (this', w')
  | NativeNotification data => notification_callback data this w
  end.

Definition characteristic_run (getDescriptorUUID : UUID -> Completion string)
    (trace : list (Bindings * BluetoothRemoteGATTServer * CharacteristicCall))
    (cw : BluetoothRemoteGATTCharacteristic * Ambient)
    : BluetoothRemoteGATTCharacteristic * Ambient :=
  fold_left (characteristic_step getDescriptorUUID) trace cw.

(** ** Scan results as the hub uses them *)

(** The [RequestDeviceInfo] handed to the filter for a scan result:
    [{ name: id, address, manufacturerData }]. *)
Definition scan_info (d : Peripheral) : RequestDeviceInfo :=
  {| info_name := peripheral_identifier d;
     info_address := peripheral_address d;
     info_manufacturerData := collect_manufacturerData d |}.

(** The device built for a scan result:
    [new BluetoothDevice(bindings, d, address, id, this, manufacturerData)]. *)
Definition device_of (d : Peripheral) : BluetoothDevice :=
  new_BluetoothDevice d (peripheral_address d) (peripheral_identifier d)
    (collect_manufacturerData d).

(** An entry of the binding's manufacturer data list that does not carry
    company [k]. *)
Definition other_company (k : N) (entry : option ManufacturerData) : Prop :=
  match entry with
  | Some x => md_id x <> k
  | None => True
  end.

(** The three calls on the adapter of one scan cycle. *)
Definition scan_cycle_calls (adapter : nat) : list BindingCall :=
  [simpleble_adapter_scan_start adapter; simpleble_adapter_scan_stop adapter;
   simpleble_adapter_scan_get_results_count adapter].

(** ** More sample inputs *)

Module Scenarios.

Definition serial_number : Characteristic :=
  {| characteristic_uuid := "2a25"; descriptors := [] |}.

Definition device_information_full : Service :=
  {| service_uuid := "180a";
     characteristics := [Samples.model_number; serial_number] |}.

Definition fresh_service : BluetoothRemoteGATTService :=
  {| svc_service := device_information_full; svc_uuid := "180a"; svc_chars := [] |}.

(** A filter on the name alone. *)
Definition named (name : string) : BluetoothLEScanFilter :=
  {| filter_name := Some name; filter_namePrefix := None;
     filter_services := None; filter_manufacturerData := None |}.

(** A filter that lists a service. *)
Definition heart_rate_filter : BluetoothLEScanFilter :=
  {| filter_name := None; filter_namePrefix := None;
     filter_services := Some [UUIDString "heart_rate"];
     filter_manufacturerData := None |}.

Definition widget_b_only : RequestDeviceInfo -> Completion bool :=
  fun info => Normal (String.eqb (info_name info) "Widget-B").

Definition only_widget_b : RequestDeviceOptions :=
  {| opt_filters := None; opt_filter := Some widget_b_only;
     opt_timeout := None; opt_signal := None |}.

Definition no_filter : RequestDeviceOptions :=
  {| opt_filters := None; opt_filter := None;
     opt_timeout := None; opt_signal := None |}.

(** A peripheral that reports company 0x004C twice. *)
Definition beacon : Peripheral :=
  {| peripheral_identifier := "Beacon"; peripheral_address := "DD:00";
     peripheral_manufacturer_data :=
       [Some {| md_id := 76; md_data := [x01] |};
        None;
        Some {| md_id := 76; md_data := [x02; x15] |};
        Some {| md_id := 6; md_data := [x09] |}] |}.

(** Two peripherals with one name. *)
Definition twin_a : Peripheral :=
  {| peripheral_identifier := "Widget"; peripheral_address := "AA:00";
     peripheral_manufacturer_data := [] |}.

Definition twin_b : Peripheral :=
  {| peripheral_identifier := "Widget"; peripheral_address := "BB:00";
     peripheral_manufacturer_data := [] |}.

End Scenarios.

(** * Properties *)

(** ** Manufacturer data filter *)

Section ManufacturerDataFacts.

(** The inner loop throws exactly when the prefix reaches past the end of
    the view, and otherwise records one comparison per prefix byte. *)
Lemma compare_bytes_fits (view : DataView) :
  forall (bytes : list byte) (i : nat) (values : list bool),
    i + length bytes <= length view ->
    exists compared,
      compare_bytes view i bytes values = Normal (values ++ compared)
      /\ length compared = length bytes
      /\ (every_true compared = true <->
          forall (k : nat) (b : byte), bytes !! k = Some b -> view !! (i + k) = Some b).
Proof.
  induction bytes as [|b rest IH]; intros i values Hfit; simpl in *.
  - exists []. rewrite app_nil_r. repeat split; auto.
    intros _ k b Hk. rewrite lookup_nil in Hk. discriminate.
  - unfold getUint8.
    destruct (view !! i) as [a|] eqn:Ha.
    2:{ apply lookup_ge_None in Ha. lia. }
    destruct (IH (S i) (values ++ [Byte.eqb a b])) as (compared & Heq & Hlen & Hiff).
    { lia. }
    exists (Byte.eqb a b :: compared).
    rewrite Heq, <- app_assoc. simpl. repeat split; auto.
    + intros Hall. apply andb_true_iff in Hall as [Hab Hrest].
      apply Byte.byte_dec_bl in Hab. subst a.
      intros [|k] b' Hk; simpl in Hk.
      * inversion Hk; subst. now rewrite Nat.add_0_r.
      * replace (i + S k) with (S i + k) by lia.
        apply (proj1 Hiff Hrest k b' Hk).
    + intros Hall. apply andb_true_iff. split.
      * specialize (Hall 0 b eq_refl). rewrite Nat.add_0_r, Ha in Hall.
        inversion Hall; subst. apply Byte.byte_dec_lb. reflexivity.
      * apply (proj2 Hiff). intros k b' Hk.
        replace (S i + k) with (i + S k) by lia. apply Hall. exact Hk.
Qed.

Lemma compare_bytes_overrun (view : DataView) :
  forall (bytes : list byte) (i : nat) (values : list bool),
    i <= length view -> length view < i + length bytes ->
    compare_bytes view i bytes values
    = Throw (RangeError "Offset is outside the bounds of the DataView").
Proof.
  induction bytes as [|b rest IH]; intros i values Hi Hover; simpl in *.
  - lia.
  - unfold getUint8.
    destruct (view !! i) as [a|] eqn:Ha.
    + apply lookup_lt_Some in Ha. apply IH; lia.
    + reflexivity.
Qed.

(** X1. When every prefix covers its whole buffer and is no longer than
    the data it is compared with, [checkManufacturerData] returns, and
    returns [true] exactly when some entry has its company in the map
    and its prefix, if any, at the start of that company's data. *)
Lemma checkManufacturerData_when_prefixes_fit (map : BluetoothManufacturerData) :
  forall filters,
    prefixes_fit map filters ->
    exists found,
      checkManufacturerData map filters = Normal found
      /\ (found = true <-> exists filter, In filter filters /\ entry_matches map filter).
Proof.
  induction filters as [|filter rest IH]; intros Hfit; simpl.
  - exists false. split; auto. split; [discriminate|]. intros (f & [] & _).
  - assert (Hrest : prefixes_fit map rest).
    { intros f v p Hin. apply Hfit. now right. }
    destruct (IH Hrest) as (found & Hcheck & Hiff).
    destruct (map !! companyIdentifier filter) as [view|] eqn:Hview.
    + destruct (dataPrefix filter) as [prefix|] eqn:Hprefix.
      * destruct (compare_bytes_fits view (buffer_of prefix) 0 [])
          as (compared & Hcmp & _ & Hall).
        { simpl. apply (Hfit filter view prefix); auto. now left. }
        assert (Hwhole : viewed_bytes prefix = buffer_of prefix).
        { apply (Hfit filter view prefix); auto. now left. }
        rewrite Hcmp. simpl.
        destruct (every_true compared) eqn:Hevery.
        -- exists true. split; auto. split; auto. intros _.
           exists filter. split; [now left|].
           exists view. split; auto. rewrite Hprefix, Hwhole.
           intros k b Hk. apply (proj1 Hall eq_refl k b Hk).
        -- exists found. split; auto. rewrite Hiff. split.
           ++ intros (f & Hin & Hm). exists f. split; [now right | exact Hm].
           ++ intros (f & [Heq|Hin] & Hm).
              ** subst f. destruct Hm as (view' & Hview' & Hm).
                 rewrite Hview in Hview'. inversion Hview'; subst view'.
                 rewrite Hprefix, Hwhole in Hm.
                 apply (proj2 Hall) in Hm. discriminate.
              ** exists f. split; auto.
      * exists true. split; auto. split; auto. intros _.
        exists filter. split; [now left|].
        exists view. split; auto. now rewrite Hprefix.
    + exists found. split; auto. rewrite Hiff. split.
      * intros (f & Hin & Hm). exists f. split; [now right | exact Hm].
      * intros (f & [Heq|Hin] & Hm).
        -- subst f. destruct Hm as (view' & Hview' & _). congruence.
        -- exists f. split; auto.
Qed.

(** The example of the specification: prefix [02 15] of company 0x004C
    matches data [02 15 99] and does not match [02 16 99]. *)
Example beacon_prefix_example :
  checkManufacturerData (Samples.data_of [x02; x15; x99]) [Samples.beacon_filter]
  = Normal true
  /\ checkManufacturerData (Samples.data_of [x02; x16; x99]) [Samples.beacon_filter]
     = Normal false.
Proof. split; vm_compute; reflexivity. Qed.

(** A prefix given as a view that starts inside its buffer is compared
    from the start of the buffer: the one byte [02] viewed at offset 1 of
    [00 02] does not match data [02 15]. *)
Example offset_view_prefix_example :
  let filter := {| companyIdentifier := Samples.apple;
                   dataPrefix := Some (ArrayBufferView [x00; x02] 1 1) |} in
  entry_matches (Samples.data_of [x02; x15]) filter
  /\ checkManufacturerData (Samples.data_of [x02; x15]) [filter] = Normal false.
Proof.
  split.
  - exists [x02; x15]. split; [vm_compute; reflexivity|].
    intros [|k] b Hk; simpl in Hk; [inversion Hk; reflexivity | discriminate].
  - vm_compute. reflexivity.
Qed.

End ManufacturerDataFacts.

(** C9. The manufacturer data match is claimed to hold exactly when some
    filter entry has its company in the candidate's map and its
    [dataPrefix], if any, equal byte for byte to the start of the data.
    For data [02] of company 0x004C the entry without prefix satisfies
    that condition, and the entry with prefix [02 15] does not; yet
    [checkManufacturerData] returns neither [true] nor [false]: reading
    the byte at offset 1 throws a [RangeError], alone or followed by the
    matching entry. *)
Theorem checkManufacturerData_long_prefix_throws :
  entry_matches (Samples.data_of [x02]) Samples.any_apple
  /\ ~ entry_matches (Samples.data_of [x02]) Samples.beacon_filter
  /\ checkManufacturerData (Samples.data_of [x02])
       [Samples.beacon_filter; Samples.any_apple]
     = Throw (RangeError "Offset is outside the bounds of the DataView")
  /\ checkManufacturerData (Samples.data_of [x02]) [Samples.beacon_filter]
     = Throw (RangeError "Offset is outside the bounds of the DataView").
Proof.
  split; [|split; [|split]].
  - exists [x02]. split; [vm_compute; reflexivity | exact I].
  - intros (view & Hview & Hprefix).
    vm_compute in Hview. inversion Hview; subst view.
    simpl in Hprefix. specialize (Hprefix 1 x15 eq_refl). discriminate.
  - vm_compute. reflexivity.
  - vm_compute. reflexivity.
Qed.

(** ** Characteristic properties *)

(** C10. The [properties] getter returns the same flags for every
    characteristic, whatever the native characteristic behind it: read,
    write, writeWithoutResponse, notify, indicate and reliableWrite are
    true; broadcast, authenticatedSignedWrites and writableAuxiliaries are
    false. *)
Theorem properties_constant :
  forall this other : BluetoothRemoteGATTCharacteristic,
    properties this = properties other
    /\ read (properties this) = true
    /\ write (properties this) = true
    /\ writeWithoutResponse (properties this) = true
    /\ notify (properties this) = true
    /\ indicate (properties this) = true
    /\ reliableWrite (properties this) = true
    /\ broadcast (properties this) = false
    /\ authenticatedSignedWrites (properties this) = false
    /\ writableAuxiliaries (properties this) = false.
Proof. intros this other. repeat split. Qed.

(** ** Requests *)

Section RequestFacts.

Variable filterCb : RequestDeviceInfo -> Completion bool.

(** With [singleDevice] set, the loop of [_request] stops at the first
    match. *)
Lemma request_results_single (results : list Peripheral) :
  forall devices found,
    request_results filterCb true results devices = Normal found ->
    length found <= S (length devices).
Proof.
  induction results as [|d rest IH]; intros devices found H; simpl in H.
  - inversion H; subst. lia.
  - destruct (filterCb _) as [[|]|e]; try discriminate.
    + inversion H; subst. rewrite length_app. simpl. lia.
    + apply IH. exact H.
Qed.

(** Without it, every matching result is collected, in order. *)
Lemma request_results_all (results : list Peripheral) :
  forall devices,
    (forall d, In d results ->
       exists b, filterCb {| info_name := peripheral_identifier d;
                             info_address := peripheral_address d;
                             info_manufacturerData := collect_manufacturerData d |}
                 = Normal b) ->
    exists found,
      request_results filterCb false results devices = Normal (devices ++ found)
      /\ List.map _peripheral found
         = List.filter
             (fun d => match filterCb {| info_name := peripheral_identifier d;
                                         info_address := peripheral_address d;
                                         info_manufacturerData :=
                                           collect_manufacturerData d |} with
                       | Normal b => b
                       | Throw _ => false
                       end) results.
Proof.
  induction results as [|d rest IH]; intros devices Hok; simpl.
  - exists []. now rewrite app_nil_r.
  - destruct (Hok d (or_introl eq_refl)) as [b Hb]. rewrite Hb.
    assert (Hrest : forall d', In d' rest ->
              exists b', filterCb {| info_name := peripheral_identifier d';
                                     info_address := peripheral_address d';
                                     info_manufacturerData :=
                                       collect_manufacturerData d' |} = Normal b').
    { intros d' Hin. apply Hok. now right. }
    destruct b.
    + destruct (IH (devices ++
                    [new_BluetoothDevice d (peripheral_address d)
                       (peripheral_identifier d) (collect_manufacturerData d)]) Hrest)
        as (found & Heq & Hmap).
      exists (new_BluetoothDevice d (peripheral_address d)
                (peripheral_identifier d) (collect_manufacturerData d) :: found).
      rewrite Heq, <- app_assoc. simpl. split; [reflexivity|]. now rewrite Hmap.
    + apply IH. exact Hrest.
Qed.

End RequestFacts.

(** [_request] with [singleDevice] set resolves to at most one device. *)
Lemma _request_single :
  forall results options this found this1,
    _request results options true this = (Normal found, this1) ->
    length found <= 1.
Proof.
  intros results options this found this1 H. unfold _request in H.
  destruct (_createFilter options) as [cb|e];
    destruct (opt_filters options), (opt_filter options);
    try discriminate;
    injection H as Hreq _;
    apply (request_results_single cb results [] found Hreq).
Qed.

(** [requestDevices] never resolves to more than one device. *)
Lemma requestDevices_at_most_one :
  forall results fires options this devices this',
    requestDevices results fires options this = (Normal devices, this') ->
    length devices = 1.
Proof.
  intros results fires options this devices this' H.
  unfold requestDevices in H.
  destruct (_request results options true this) as [p this1] eqn:Hreq.
  assert (Hp : forall found, p = Normal found -> length found <= 1).
  { intros found ->. apply (_request_single _ _ _ _ _ Hreq). }
  destruct (opt_signal options); [destruct fires|]; simpl in H;
    try discriminate;
    destruct p as [[|d0 [|d1 l]]|e]; try discriminate;
    inversion H; subst; try reflexivity;
    specialize (Hp _ eq_refl); simpl in Hp; lia.
Qed.

(** C6. [requestDevices] is claimed to return every device of the scan
    cycle that matches the filter. With two results named ["Widget-A"]
    and ["Widget-B"] and the filter [namePrefix: "Widget"], both match
    (the loop of [_request] run with [singleDevice = false] collects
    both), but [requestDevices] calls [_request(options, true)] and
    resolves to the first one only, which is also all that reaches the
    registry. *)
Theorem requestDevices_returns_first_match_only :
  let results := [Samples.widget_a; Samples.widget_b] in
  fst (_request results Samples.widget_prefix false Samples.hub)
  = Normal [new_BluetoothDevice Samples.widget_a "AA:00" "Widget-A" ∅;
            new_BluetoothDevice Samples.widget_b "BB:00" "Widget-B" ∅]
  /\ fst (requestDevices results false Samples.widget_prefix Samples.hub)
     = Normal [new_BluetoothDevice Samples.widget_a "AA:00" "Widget-A" ∅]
  /\ _devices (snd (requestDevices results false Samples.widget_prefix Samples.hub))
     = [new_BluetoothDevice Samples.widget_a "AA:00" "Widget-A" ∅]
  /\ fst (requestDevices results false Samples.widget_prefix Samples.hub)
     = match fst (requestDevice results false Samples.widget_prefix Samples.hub) with
       | Normal device => Normal [device]
       | Throw e => Throw e
       end.
Proof. repeat split; vm_compute; reflexivity. Qed.

(** ** Continuous scan *)

Section ScanFacts.

Variable adapter : nat.
Variable filterCb : RequestDeviceInfo -> Completion bool.

Lemma includes_false (ids : list string) (id : string) :
  includes ids id = false -> ~ In id ids.
Proof.
  unfold includes. intros Hex Hin.
  assert (existsb (String.eqb id) ids = true) as Habs.
  { apply existsb_exists. exists id. split; [exact Hin | apply String.eqb_refl]. }
  congruence.
Qed.

Lemma NoDup_snoc (ids : list string) (id : string) :
  NoDup ids -> ~ In id ids -> NoDup (ids ++ [id]).
Proof.
  intros Hnd Hnin. apply NoDup_app. split; [exact Hnd|]. split.
  - intros x Hx Hx'. apply list_elem_of_singleton in Hx'. subst x.
    apply Hnin. now apply list_elem_of_In.
  - apply NoDup_singleton.
Qed.

(** One cycle: [ids] grows by the names of the devices yielded, in order,
    and stays free of duplicates. *)
Lemma scan_results_ids (results : list Peripheral) :
  forall ids yielded ids' e,
    scan_results filterCb results ids = (yielded, ids', e) ->
    NoDup ids ->
    ids' = ids ++ List.map _name yielded /\ NoDup ids'.
Proof.
  induction results as [|d rest IH]; intros ids yielded ids' e H Hnd; simpl in H.
  - inversion H; subst. simpl. now rewrite app_nil_r.
  - destruct (includes ids (peripheral_identifier d)) eqn:Hinc.
    + apply (IH _ _ _ _ H Hnd).
    + destruct (filterCb _) as [[|]|ex].
      * destruct (scan_results filterCb rest (ids ++ [peripheral_identifier d]))
          as [[ys0 ids0] e0] eqn:Hrec.
        inversion H; subst.
        destruct (IH _ _ _ _ Hrec) as [Hids Hnd'].
        { apply NoDup_snoc; [exact Hnd | now apply includes_false]. }
        split; [|exact Hnd']. rewrite Hids, <- app_assoc. reflexivity.
      * apply (IH _ _ _ _ H Hnd).
      * inversion H; subst. simpl. now rewrite app_nil_r.
Qed.

Lemma scan_ids_signal_abort (st : ScanState) :
  scan_ids (signal_abort st) = scan_ids st.
Proof. unfold signal_abort. now destruct (scan_listener st). Qed.

Lemma scan_done_signal_abort (st : ScanState) :
  scan_done st = false -> scan_done (signal_abort st) = false.
Proof. unfold signal_abort. now destruct (scan_listener st). Qed.

(** The whole loop: the same invariant over any number of cycles. *)
Lemma scan_wait_ids (ticks : list ScanTick) :
  forall st yielded st' ending,
    scan_wait adapter filterCb ticks st = (yielded, st', ending) ->
    NoDup (scan_ids st) ->
    scan_ids st' = scan_ids st ++ List.map _name yielded /\ NoDup (scan_ids st').
Proof.
  induction ticks as [|tick rest IH]; intros st yielded st' ending H Hnd; simpl in H.
  - inversion H; subst. simpl. now rewrite app_nil_r.
  - destruct tick as [|results].
    + destruct (IH _ _ _ _ H) as [Hids Hnd'].
      { now rewrite scan_ids_signal_abort. }
      rewrite scan_ids_signal_abort in Hids. now split.
    + simpl in H.
      destruct (scan_results filterCb results (scan_ids st))
        as [[ys0 ids0] [e|]] eqn:Hcycle;
        destruct (scan_results_ids _ _ _ _ _ Hcycle Hnd) as [Hids0 Hnd0].
      * injection H as Hy Hs He. subst yielded st' ending. simpl. now split.
      * simpl in H. destruct (scan_done st); simpl in H.
        -- injection H as Hy Hs He. subst yielded st' ending. simpl. now split.
        -- match type of H with
           | context [scan_wait adapter filterCb rest ?s] =>
               destruct (scan_wait adapter filterCb rest s)
                 as [[ys1 st1] ending1] eqn:Hrec
           end.
           injection H as Hy Hs He. subst yielded st' ending.
           destruct (IH _ _ _ _ Hrec) as [Hids1 Hnd1]; [exact Hnd0|].
           simpl in Hids1. split; [|exact Hnd1].
           rewrite Hids1, Hids0, List.map_app, app_assoc. reflexivity.
Qed.

(** The flag [done] is never set: started with [done = false], the loop
    does not return, whatever the signal does. *)
Lemma scan_wait_never_returns (ticks : list ScanTick) :
  forall st yielded st' ending,
    scan_wait adapter filterCb ticks st = (yielded, st', ending) ->
    scan_done st = false ->
    scan_done st' = false /\ ending <> Returned.
Proof.
  induction ticks as [|tick rest IH]; intros st yielded st' ending H Hdone; simpl in H.
  - inversion H; subst. split; [exact Hdone | discriminate].
  - destruct tick as [|results].
    + apply (IH _ _ _ _ H). now apply scan_done_signal_abort.
    + simpl in H.
      destruct (scan_results filterCb results (scan_ids st)) as [[ys0 ids0] [e|]].
      * inversion H; subst. split; [exact Hdone | discriminate].
      * simpl in H. rewrite Hdone in H. simpl in H.
        match type of H with
        | context [scan_wait adapter filterCb rest ?s] =>
            destruct (scan_wait adapter filterCb rest s)
              as [[ys1 st1] ending1] eqn:Hrec
        end.
        inversion H; subst.
        apply (IH _ _ _ _ Hrec). exact Hdone.
Qed.

End ScanFacts.

(** [scan] either throws before the loop, having yielded nothing, or
    runs the loop from a state with [done = false] and no [ids]. *)
Lemma scan_cases :
  forall options ticks this,
    (exists st e, scan options ticks this = ([], st, Thrown e))
    \/ (exists filterCb st,
          scan_done st = false /\ scan_ids st = []
          /\ scan options ticks this = scan_wait (_adapter this) filterCb ticks st).
Proof.
  intros options ticks this. unfold scan.
  destruct (_createFilter options) as [cb|e] eqn:Hcb;
    destruct (opt_filters options), (opt_filter options);
    try (left; eexists; eexists; reflexivity);
    (destruct (match opt_signal options with
               | Some signal => aborted signal
               | None => false
               end); [left; eexists; eexists; reflexivity|]);
    simpl;
    first [ right; eexists; eexists; split; [|split; [|reflexivity]]; reflexivity
          | left; eexists; eexists; reflexivity ].
Qed.

(** X18. The continuous scan never completes: over every run, with or
    without a signal and however often it fires, the generator ends
    suspended in a delay or with an exception, never by leaving its
    loop. *)
Lemma scan_never_returns :
  forall options ticks this,
    snd (scan options ticks this) <> Returned.
Proof.
  intros options ticks this.
  destruct (scan_cases options ticks this)
    as [(st & e & Heq) | (cb & st & Hdone & _ & Heq)]; rewrite Heq.
  - simpl. discriminate.
  - destruct (scan_wait (_adapter this) cb ticks st) as [[ys st'] ending] eqn:Hrun.
    apply (scan_wait_never_returns _ _ _ _ _ _ _ Hrun Hdone).
Qed.

(** C7. No two yielded devices are claimed to have the same id. The
    scan does keep a list of what it has yielded, but the list holds
    [simpleble_peripheral_identifier], the name, while a device's [id]
    is the peripheral's address. A peripheral at address ["CC:00"]
    reported without a name in the first cycle and as ["Widget-C"] in
    the second is yielded twice, and the two devices have the same
    [id]. The other way round, of two peripherals named ["Widget"] at
    addresses ["AA:00"] and ["BB:00"] only the first is ever yielded. *)
Theorem scan_deduplicates_names_not_ids :
  List.map _id
    (fst (fst (scan (Samples.accept_all false)
                 [CycleResults [Samples.unnamed_c]; CycleResults [Samples.named_c]]
                 Samples.hub)))
  = ["CC:00"; "CC:00"]
  /\ ~ NoDup (List.map _id
                (fst (fst (scan (Samples.accept_all false)
                             [CycleResults [Samples.unnamed_c];
                              CycleResults [Samples.named_c]]
                             Samples.hub))))
  /\ List.map _id
       (fst (fst (scan (Samples.accept_all false)
                    [CycleResults [Scenarios.twin_a; Scenarios.twin_b];
                     CycleResults [Scenarios.twin_a; Scenarios.twin_b]]
                    Samples.hub)))
     = ["AA:00"].
Proof.
  split; [vm_compute; reflexivity|]. split; [|vm_compute; reflexivity].
  vm_compute. intros Hnd.
  apply NoDup_cons in Hnd as [Hnin _].
  apply Hnin. apply list_elem_of_here.
Qed.

(** X27. Over any run of the continuous scan, no two yielded devices
    have the same name: the scan deduplicates on the peripheral
    identifier, so a scan result whose identifier was yielded before is
    skipped, in the same cycle or in a later one. *)
Theorem scan_yields_each_name_once :
  forall options ticks this,
    NoDup (List.map _name (fst (fst (scan options ticks this)))).
Proof.
  intros options ticks this.
  destruct (scan_cases options ticks this)
    as [(st & e & Heq) | (cb & st & _ & Hids & Heq)]; rewrite Heq.
  - simpl. apply NoDup_nil_2.
  - destruct (scan_wait (_adapter this) cb ticks st) as [[ys st'] ending] eqn:Hrun.
    destruct (scan_wait_ids _ _ _ _ _ _ _ Hrun) as [Hids' Hnd].
    + rewrite Hids. apply NoDup_nil_2.
    + rewrite Hids in Hids'. simpl in *. rewrite Hids' in Hnd. exact Hnd.
Qed.

(** C8. When the signal fires the loop is claimed to end. The listener
    assigns [false] to [done], so the flag never becomes true; with the
    signal firing during the second delay, the second cycle still yields
    its device, a third scan is started and the generator is waiting
    again, not returned. *)
Theorem scan_abort_does_not_end_the_loop :
  (forall st, scan_done (abort_listener st) = false)
  /\ scan (Samples.accept_all true)
       [CycleResults [Samples.widget_a]; AbortFires; CycleResults [Samples.widget_b]]
       Samples.hub
     = ([new_BluetoothDevice Samples.widget_a "AA:00" "Widget-A" ∅;
         new_BluetoothDevice Samples.widget_b "BB:00" "Widget-B" ∅],
        {| scan_done := false;
           scan_ids := ["Widget-A"; "Widget-B"];
           scan_listener := false;
           scan_calls :=
             [simpleble_adapter_scan_start 0; simpleble_adapter_scan_stop 0;
              simpleble_adapter_scan_get_results_count 0;
              simpleble_adapter_scan_start 0; simpleble_adapter_scan_stop 0;
              simpleble_adapter_scan_get_results_count 0;
              simpleble_adapter_scan_start 0] |},
        Suspended).
Proof. split; [reflexivity | vm_compute; reflexivity]. Qed.

(** ** GATT server: connection *)

(** C3. [connect()] throws if the server is already connected; if the
    native connect call reports failure it throws "Device refused to
    connect" and [connected] stays false; on native success it empties
    the service cache, sets [connected], dispatches
    [gattserverdisconnected] on the device and on the hub, and registers
    a disconnection callback which, when the binding runs it, sets
    [connected] back to false. *)
Theorem connect_behaviour :
  forall (bindings : Bindings) (this : BluetoothRemoteGATTServer) (w : Ambient),
    let '(result, this', w') := connect bindings this w in
    if connected this then
      result = Throw (Error "Device already connected") /\ this' = this /\ w' = w
    else if connect_result bindings then
      result = Normal this'
      /\ _services this' = []
      /\ connected this' = true
      /\ calls w' = calls w ++ [simpleble_peripheral_connect;
                                simpleble_peripheral_set_callback_on_disconnected]
      /\ disconnected_callback w' = Some SetConnectedFalse
      /\ connected (native_disconnected this' w') = false
      /\ events w' = events w ++
           [ {| event_target := OnDevice; event_type := "gattserverdisconnected" |};
             {| event_target := OnBluetooth; event_type := "gattserverdisconnected" |} ]
    else
      result = Throw (Error "Device refused to connect")
      /\ connected this' = false
      /\ events w' = events w.
Proof.
  intros bindings this w. unfold connect.
  destruct (connected this) eqn:Hconn.
  - repeat split.
  - destruct (connect_result bindings); simpl.
    + repeat split; rewrite <- ?app_assoc; reflexivity.
    + repeat split. exact Hconn.
Qed.

(** ** Characteristic: value and change events *)

Lemma change_events_once_per_level (this : BluetoothRemoteGATTCharacteristic) :
  one_change_event_per_level this (change_events this).
Proof.
  unfold one_change_event_per_level, change_events, count_events, is_event.
  simpl. rewrite !String.eqb_refl. simpl. repeat split.
Qed.

Lemma notify_then_change_events_once_per_level (this : BluetoothRemoteGATTCharacteristic) :
  one_change_event_per_level this
    ({| event_target := OnCharacteristic (char_service this) (char_uuid this);
        event_type := "notify" |} :: change_events this).
Proof.
  unfold one_change_event_per_level, change_events, count_events, is_event.
  simpl. rewrite !String.eqb_refl. simpl. repeat split.
Qed.

(** X26. A successful [writeValue], [writeValueWithResponse] or
    [writeValueWithoutResponse] (the binding reports success) sets
    [value] to the bytes handed to the binding and dispatches no event; a
    failed one changes nothing but the trace. Every native notification
    delivery sets [value] to the bytes delivered and dispatches exactly
    one [characteristicvaluechanged] event on each of the
    characteristic, the service, the device and the hub. *)
Theorem writes_and_notifications_update_value :
  forall (bindings : Bindings) (gatt : BluetoothRemoteGATTServer)
         (this : BluetoothRemoteGATTCharacteristic) (w : Ambient)
         (value : BufferSource) (data : list byte),
    (let '(result, this', w') := writeValue bindings gatt value this w in
     if write_command_result bindings (char_service this) (char_uuid this) (buffer_of value)
     then result = Normal tt
          /\ char_value this' = Some (buffer_of value)
          /\ calls w' = calls w ++ [simpleble_peripheral_write_command (char_service this)
                                     (char_uuid this) (buffer_of value)]
          /\ events w' = events w
     else is_normal result = false /\ this' = this /\ events w' = events w)
    /\ writeValueWithResponse bindings gatt value this w
       = writeValue bindings gatt value this w
    /\ (let '(result, this', w') := writeValueWithoutResponse bindings gatt value this w in
        if write_request_result bindings (char_service this) (char_uuid this)
             (buffer_of value)
        then result = Normal tt
             /\ char_value this' = Some (buffer_of value)
             /\ calls w' = calls w ++ [simpleble_peripheral_write_request (char_service this)
                                        (char_uuid this) (buffer_of value)]
             /\ events w' = events w
        else is_normal result = false /\ this' = this /\ events w' = events w)
    /\ (let '(this', w') := notification_callback data this w in
        char_value this' = Some data
        /\ events w' = events w ++
             {| event_target := OnCharacteristic (char_service this) (char_uuid this);
                event_type := "notify" |} :: change_events this
        /\ one_change_event_per_level this
             ({| event_target := OnCharacteristic (char_service this) (char_uuid this);
                 event_type := "notify" |} :: change_events this)).
Proof.
  intros bindings gatt this w value data.
  split; [|split; [|split]].
  - unfold writeValue, writeValueWithResponse.
    destruct (write_command_result _ _ _ _); simpl; repeat split.
  - reflexivity.
  - unfold writeValueWithoutResponse.
    destruct (write_request_result _ _ _ _); simpl; repeat split.
  - unfold notification_callback. simpl.
    split; [reflexivity|]. split.
    + unfold change_events. rewrite <- !app_assoc. reflexivity.
    + apply notify_then_change_events_once_per_level.
Qed.

(** [readValue] calls the binding once and then throws: "Characteristic
    is no longer valid" when the binding returns [undefined], the
    [TypeError] of the [DataView] constructor when it returns the typed
    array. The characteristic and the event log stay as they were. *)
Lemma readValue_outcome :
  forall (bindings : Bindings) (gatt : BluetoothRemoteGATTServer)
         (this : BluetoothRemoteGATTCharacteristic) (w : Ambient),
    readValue bindings gatt this w
    = (Throw (match read_result bindings (char_service this) (char_uuid this) with
              | Some _ =>
                  TypeError "First argument to DataView constructor must be an ArrayBuffer"
              | None => Error "Characteristic is no longer valid"
              end),
       this,
       call (simpleble_peripheral_read (char_service this) (char_uuid this)) w).
Proof.
  intros bindings gatt this w. unfold readValue.
  destruct (read_result bindings (char_service this) (char_uuid this)); reflexivity.
Qed.

(** C5. A successful [readValue] is claimed to set [value] and to
    dispatch one [characteristicvaluechanged] event on each level. No
    [readValue] succeeds: the binding's answer, a [Uint8Array], is given
    to [new DataView(buffer)], which takes an [ArrayBuffer] only. With a
    binding whose native read returns the bytes [42 42 43] the call
    throws a [TypeError], [value] stays undefined and nothing is
    dispatched; and so for every binding, characteristic and state, the
    outcome is never a value, the characteristic is unchanged and the
    event log is unchanged. *)
Theorem readValue_never_resolves :
  read_result Samples.accepting "180a" "2a24" = Some [x42; x42; x43]
  /\ readValue Samples.accepting Samples.connected_server Samples.model_number_char quiet
     = (Throw (TypeError "First argument to DataView constructor must be an ArrayBuffer"),
        Samples.model_number_char,
        call (simpleble_peripheral_read "180a" "2a24") quiet)
  /\ char_value Samples.model_number_char = None
  /\ (forall (bindings : Bindings) (gatt : BluetoothRemoteGATTServer)
             (this : BluetoothRemoteGATTCharacteristic) (w : Ambient),
        is_normal (fst (fst (readValue bindings gatt this w))) = false
        /\ snd (fst (readValue bindings gatt this w)) = this
        /\ events (snd (readValue bindings gatt this w)) = events w).
Proof.
  split; [reflexivity|]. split; [reflexivity|]. split; [reflexivity|].
  intros bindings gatt this w. rewrite readValue_outcome. repeat split.
Qed.

(** ** Connection guard *)

(** C1, as stated, at a concrete input. On a server that was never
    connected, [writeValue] on a characteristic calls the binding, and,
    the binding reporting success, resolves and stores the value;
    [readValue] on a characteristic and [writeValue] on a descriptor
    reach the binding as well. *)
Lemma writeValue_reaches_binding_when_disconnected :
  connected new_BluetoothRemoteGATTServer = false
  /\ writeValue Samples.accepting new_BluetoothRemoteGATTServer (ArrayBuffer [x01])
       Samples.model_number_char quiet
     = (Normal tt,
        set_char_value (Some [x01]) Samples.model_number_char,
        call (simpleble_peripheral_write_command "180a" "2a24" [x01]) quiet)
  /\ calls (snd (readValue Samples.accepting new_BluetoothRemoteGATTServer
                   Samples.model_number_char quiet))
     = [simpleble_peripheral_read "180a" "2a24"]
  /\ calls (snd (descriptor_writeValue Samples.accepting new_BluetoothRemoteGATTServer
                   (ArrayBuffer [x01]) Samples.cccd quiet))
     = [simpleble_peripheral_write_descriptor "180a" "2a24" "2902" [x01]].
Proof. repeat split. Qed.

(** C1, amended. While the server is not connected, [readValue] on a
    descriptor and [startNotifications], [stopNotifications],
    [getDescriptors] and [getDescriptor] on a characteristic throw
    "Device not connected" and leave the objects, the event log and the
    trace of binding calls as they were. The write operations have no
    such guard: for any state [server] of the server, connected or not,
    each makes exactly one call into the binding, resolves and stores
    the bytes written when that call reports success, and throws,
    leaving the object as it was, only when it reports failure. *)
Theorem disconnected_operations_fail_fast :
  forall (bindings : Bindings) (getDescriptorUUID : UUID -> Completion string)
         (gatt server : BluetoothRemoteGATTServer)
         (char : BluetoothRemoteGATTCharacteristic)
         (descriptor : BluetoothRemoteGATTDescriptor)
         (uuid : option UUID) (value : BufferSource) (w : Ambient),
    connected gatt = false ->
    descriptor_readValue bindings gatt descriptor w
    = (Throw (Error "Device not connected"), descriptor, w)
    /\ startNotifications gatt char w = (Throw (Error "Device not connected"), char, w)
    /\ stopNotifications gatt char w = (Throw (Error "Device not connected"), char, w)
    /\ getDescriptors getDescriptorUUID gatt uuid char w
       = (Throw (Error "Device not connected"), char, w)
    /\ getDescriptor getDescriptorUUID gatt uuid char w
       = (Throw (Error "Device not connected"), char, w)
    /\ writeValueWithResponse bindings server value char w
       = (if write_command_result bindings (char_service char) (char_uuid char)
               (buffer_of value)
          then (Normal tt, set_char_value (Some (buffer_of value)) char,
                call (simpleble_peripheral_write_command (char_service char)
                        (char_uuid char) (buffer_of value)) w)
          else (Throw (Error "Error while writing a command to a characteristic"), char,
                call (simpleble_peripheral_write_command (char_service char)
                        (char_uuid char) (buffer_of value)) w))
    /\ writeValue bindings server value char w
       = writeValueWithResponse bindings server value char w
    /\ writeValueWithoutResponse bindings server value char w
       = (if write_request_result bindings (char_service char) (char_uuid char)
               (buffer_of value)
          then (Normal tt, set_char_value (Some (buffer_of value)) char,
                call (simpleble_peripheral_write_request (char_service char)
                        (char_uuid char) (buffer_of value)) w)
          else (Throw (Error "Error while writing a request to a characteristic"), char,
                call (simpleble_peripheral_write_request (char_service char)
                        (char_uuid char) (buffer_of value)) w))
    /\ descriptor_writeValue bindings server value descriptor w
       = (if write_descriptor_result bindings (descriptor_service descriptor)
               (descriptor_char descriptor) (descriptor_uuid descriptor)
               (buffer_of value)
          then (Normal tt,
                {| descriptor_service := descriptor_service descriptor;
                   descriptor_char := descriptor_char descriptor;
                   descriptor_uuid := descriptor_uuid descriptor;
                   descriptor_value := Some (buffer_of value) |},
                call (simpleble_peripheral_write_descriptor
                        (descriptor_service descriptor) (descriptor_char descriptor)
                        (descriptor_uuid descriptor) (buffer_of value)) w)
          else (Throw (Error "Descriptor is no longer valid"), descriptor,
                call (simpleble_peripheral_write_descriptor
                        (descriptor_service descriptor) (descriptor_char descriptor)
                        (descriptor_uuid descriptor) (buffer_of value)) w))
    /\ (forall c, calls (call c w) = calls w ++ [c] /\ events (call c w) = events w).
Proof.
  intros bindings getDescriptorUUID gatt server char descriptor uuid value w Hdisc.
  unfold descriptor_readValue, startNotifications, stopNotifications,
    getDescriptors, getDescriptor, writeValue, writeValueWithResponse,
    writeValueWithoutResponse, descriptor_writeValue.
  rewrite Hdisc. simpl.
  repeat split;
    try (destruct (write_command_result _ _ _ _); reflexivity);
    try (destruct (write_request_result _ _ _ _); reflexivity);
    try (destruct (write_descriptor_result _ _ _ _ _); reflexivity).
Qed.

Lemma disconnected_operations_fail_fast_witness :
  connected new_BluetoothRemoteGATTServer = false
  /\ startNotifications new_BluetoothRemoteGATTServer Samples.model_number_char quiet
     = (Throw (Error "Device not connected"), Samples.model_number_char, quiet)
  /\ descriptor_readValue Samples.accepting new_BluetoothRemoteGATTServer
       Samples.cccd quiet
     = (Throw (Error "Device not connected"), Samples.cccd, quiet)
  /\ writeValueWithResponse Samples.accepting Samples.connected_server
       (ArrayBuffer [x01]) Samples.model_number_char quiet
     = (Normal tt, set_char_value (Some [x01]) Samples.model_number_char,
        call (simpleble_peripheral_write_command "180a" "2a24" [x01]) quiet).
Proof.
  split; [reflexivity|].
  pose proof (disconnected_operations_fail_fast Samples.accepting Samples.keep_uuid
                new_BluetoothRemoteGATTServer Samples.connected_server
                Samples.model_number_char Samples.cccd
                None (ArrayBuffer [x01]) quiet eq_refl) as H.
  split; [apply H|]. split; [apply H|].
  destruct H as (_ & _ & _ & _ & _ & Hwrite & _).
  exact Hwrite.
Defined.

(** ** Child caches *)

(** [getPrimaryServices] never reads the services from the binding: the
    cache array is an object, so [!this._services] is false. It makes no
    call and leaves the cache as it is. *)
Lemma getPrimaryServices_makes_no_call :
  forall bindings getServiceUUID uuid this w,
    snd (fst (getPrimaryServices bindings getServiceUUID uuid this w)) = this
    /\ snd (getPrimaryServices bindings getServiceUUID uuid this w) = w.
Proof.
  intros bindings getServiceUUID uuid this w. unfold getPrimaryServices.
  destruct (connected this); simpl; [|split; reflexivity].
  destruct uuid as [u|]; [|split; reflexivity].
  destruct (truthy_uuid (Some u)); simpl; [|split; reflexivity].
  destruct (filter_by_uuid svc_uuid getServiceUUID u (_services this)) as [l|e];
    [destruct (Nat.eqb (length l) 1)|]; split; reflexivity.
Qed.

(** Between [connect] and the next call of it nothing fills the cache, so
    [getPrimaryServices()] resolves to the empty array. *)
Lemma getPrimaryServices_after_connect :
  forall bindings getServiceUUID this w this' w',
    connect bindings this w = (Normal this', this', w') ->
    getPrimaryServices bindings getServiceUUID None this' w' = (Normal [], this', w').
Proof.
  intros bindings getServiceUUID this w this' w' H. unfold connect in H.
  destruct (connected this); [discriminate|].
  destruct (connect_result bindings); simpl in H; [|discriminate].
  inversion H; subst. reflexivity.
Qed.

(** Every call of [getCharacteristics] on a connected device appends the
    native characteristics to the cache once more. *)
Lemma getCharacteristics_grows :
  forall getCharacteristicUUID gatt uuid this w,
    connected gatt = true ->
    svc_chars (snd (fst (getCharacteristics getCharacteristicUUID gatt uuid this w)))
    = svc_chars this ++
      List.map (new_BluetoothRemoteGATTCharacteristic (svc_uuid this))
        (characteristics (svc_service this)).
Proof.
  intros getCharacteristicUUID gatt uuid this w Hconn. unfold getCharacteristics.
  rewrite Hconn. simpl.
  destruct uuid as [u|]; [|reflexivity].
  destruct (truthy_uuid (Some u)); simpl; [|reflexivity].
  destruct (getCharacteristicUUID u) as [c|e]; [|reflexivity].
  match goal with |- context [Nat.eqb ?n 1] => destruct (Nat.eqb n 1) end; reflexivity.
Qed.

(** C2. The child caches are claimed to be filled from the binding
    exactly once per connection. With a binding that exposes one service
    holding one characteristic: after a successful [connect], the first
    [getPrimaryServices()] makes no call into the binding and resolves to
    the empty array; and two successive [getCharacteristics()] on a
    service resolve to one and then to two characteristic objects, the
    cache having grown. *)
Theorem caches_not_filled_once_per_epoch :
  services_result Samples.accepting = [Samples.device_information]
  /\ (let '(_, server, w) :=
        connect Samples.accepting new_BluetoothRemoteGATTServer quiet in
      connected server = true
      /\ getPrimaryServices Samples.accepting Samples.keep_uuid None server w
         = (Normal [], server, w))
  /\ (let '(first, service1, w1) :=
        getCharacteristics Samples.keep_uuid Samples.connected_server None
          Samples.device_information_svc quiet in
      let '(second, service2, w2) :=
        getCharacteristics Samples.keep_uuid Samples.connected_server None service1 w1 in
      first = Normal [Samples.model_number_char]
      /\ second = Normal [Samples.model_number_char; Samples.model_number_char]
      /\ length (svc_chars service2) = 2).
Proof. repeat split. Qed.

(** ** Service lookup *)

(** C4, as stated, at a concrete input. On a freshly connected server
    no cached service has UUID ["180a"]; [getPrimaryServices("180a")]
    does not resolve to the empty array but throws "Service not
    found". *)
Lemma getPrimaryServices_zero_matches_throws :
  let '(_, server, w) :=
    connect Samples.accepting new_BluetoothRemoteGATTServer quiet in
  connected server = true
  /\ List.filter (fun s => String.eqb (svc_uuid s) "180a") (_services server) = []
  /\ fst (fst (getPrimaryServices Samples.accepting Samples.keep_uuid
                 (Some (UUIDString "180a")) server w))
     = Throw (Error "Service not found").
Proof. repeat split. Qed.

(** C4, amended. On a connected server, [getPrimaryServices(uuid)] with
    a UUID resolves to the cached services whose [uuid] equals the
    normalised requested UUID only when there is exactly one of them;
    with none or several it throws "Service not found", and so does
    [getPrimaryService(uuid)], which otherwise resolves to that one
    service. Without a UUID [getPrimaryServices()] resolves to the whole
    cache. *)
Theorem getPrimaryServices_requires_one_match :
  forall (bindings : Bindings) (getServiceUUID : UUID -> Completion string)
         (u : UUID) (canonical : string)
         (this : BluetoothRemoteGATTServer) (w : Ambient),
    connected this = true ->
    truthy_uuid (Some u) = true ->
    getServiceUUID u = Normal canonical ->
    let matches :=
      List.filter (fun s => String.eqb (svc_uuid s) canonical) (_services this) in
    getPrimaryServices bindings getServiceUUID (Some u) this w
    = (if Nat.eqb (length matches) 1 then Normal matches
       else Throw (Error "Service not found"), this, w)
    /\ getPrimaryService bindings getServiceUUID (Some u) this w
       = (match matches with
          | [service] => Normal service
          | _ => Throw (Error "Service not found")
          end, this, w)
    /\ getPrimaryServices bindings getServiceUUID None this w
       = (Normal (_services this), this, w).
Proof.
  intros bindings getServiceUUID u canonical this w Hconn Htruthy Hnorm matches.
  assert (Hfilter : filter_by_uuid svc_uuid getServiceUUID u (_services this)
                    = Normal matches).
  { unfold filter_by_uuid, matches.
    destruct (_services this) as [|s rest]; [reflexivity|]. now rewrite Hnorm. }
  assert (Hplural : getPrimaryServices bindings getServiceUUID (Some u) this w
                    = (if Nat.eqb (length matches) 1 then Normal matches
                       else Throw (Error "Service not found"), this, w)).
  { unfold getPrimaryServices, truthy_array. rewrite Hconn.
    cbn [negb]. cbv beta iota zeta. rewrite Htruthy. cbn [negb]. rewrite Hfilter.
    destruct (Nat.eqb (length matches) 1); reflexivity. }
  split; [exact Hplural|]. split.
  - unfold getPrimaryService. rewrite Hconn, Htruthy. simpl negb. cbv iota.
    rewrite Hplural.
    destruct matches as [|s [|s' rest]]; reflexivity.
  - unfold getPrimaryServices. rewrite Hconn. reflexivity.
Qed.

Lemma getPrimaryServices_requires_one_match_witness :
  let server := {| _connected := true; _services := [Samples.device_information_svc] |} in
  connected server = true
  /\ truthy_uuid (Some (UUIDString "180a")) = true
  /\ Samples.keep_uuid (UUIDString "180a") = Normal "180a"
  /\ getPrimaryServices Samples.accepting Samples.keep_uuid
       (Some (UUIDString "180a")) server quiet
     = (Normal [Samples.device_information_svc], server, quiet).
Proof.
  split; [reflexivity|]. split; [reflexivity|]. split; [reflexivity|].
  apply (getPrimaryServices_requires_one_match Samples.accepting Samples.keep_uuid
           (UUIDString "180a") "180a"
           {| _connected := true; _services := [Samples.device_information_svc] |}
           quiet eq_refl eq_refl eq_refl).
Defined.

(** * Further properties *)

(** ** Manufacturer data *)

(** X1 witness: a prefix of two bytes against data of three. *)
Lemma checkManufacturerData_when_prefixes_fit_witness :
  prefixes_fit (Samples.data_of [x02; x15; x99]) [Samples.beacon_filter]
  /\ exists found,
       checkManufacturerData (Samples.data_of [x02; x15; x99]) [Samples.beacon_filter]
       = Normal found
       /\ (found = true <->
           exists filter,
             In filter [Samples.beacon_filter]
             /\ entry_matches (Samples.data_of [x02; x15; x99]) filter).
Proof.
  assert (Hfit : prefixes_fit (Samples.data_of [x02; x15; x99]) [Samples.beacon_filter]).
  { intros f v p [<-|[]] Hv Hp.
    vm_compute in Hv. inversion Hv; subst v.
    simpl in Hp. inversion Hp; subst p. simpl. split; [reflexivity | lia]. }
  split; [exact Hfit|].
  exact (checkManufacturerData_when_prefixes_fit _ _ Hfit).
Defined.

(** A list of entries followed by another: the second list is reached
    only when the first finds no match. *)
Lemma checkManufacturerData_concat :
  forall (map : BluetoothManufacturerData)
         (first second : list BluetoothManufacturerDataFilter),
    checkManufacturerData map (first ++ second)
    = match checkManufacturerData map first with
      | Normal false => checkManufacturerData map second
      | outcome => outcome
      end.
Proof.
  intros map first second.
  induction first as [|filter rest IH]; simpl; [reflexivity|].
  destruct (map !! companyIdentifier filter) as [view|]; [|exact IH].
  destruct (dataPrefix filter) as [prefix|]; [|reflexivity].
  destruct (compare_bytes view 0 (buffer_of prefix) []) as [values|e]; [|reflexivity].
  destruct (every_true values); [reflexivity | exact IH].
Qed.

(** X2. The filter entries are alternatives tried in order: a list of
    entries followed by another behaves as the first list, and goes on to
    the second only when the first finds no match. *)
Theorem checkManufacturerData_app :
  forall (map : BluetoothManufacturerData)
         (first second : list BluetoothManufacturerDataFilter),
    checkManufacturerData map (first ++ second)
    = match checkManufacturerData map first with
      | Normal false => checkManufacturerData map second
      | outcome => outcome
      end.
Proof. exact checkManufacturerData_concat. Qed.

(** X3. An entry whose company is in the candidate's map and whose
    prefix buffer is longer than the candidate's data makes the function
    throw a [RangeError], whatever the bytes are and whatever entries
    follow, once the entries before it have found no match. *)
Theorem checkManufacturerData_overrun :
  forall (map : BluetoothManufacturerData)
         (before after : list BluetoothManufacturerDataFilter)
         (filter : BluetoothManufacturerDataFilter)
         (view : DataView) (prefix : BufferSource),
    checkManufacturerData map before = Normal false ->
    map !! companyIdentifier filter = Some view ->
    dataPrefix filter = Some prefix ->
    length view < length (buffer_of prefix) ->
    checkManufacturerData map (before ++ filter :: after)
    = Throw (RangeError "Offset is outside the bounds of the DataView").
Proof.
  intros map before after filter view prefix Hbefore Hview Hprefix Hlong.
  rewrite checkManufacturerData_concat, Hbefore. simpl.
  rewrite Hview, Hprefix.
  rewrite (compare_bytes_overrun view (buffer_of prefix) 0 []); [reflexivity | lia | lia].
Qed.

Lemma checkManufacturerData_overrun_witness :
  checkManufacturerData (Samples.data_of [x02; x15])
    [{| companyIdentifier := 6; dataPrefix := None |}] = Normal false
  /\ Samples.data_of [x02; x15] !! companyIdentifier
       {| companyIdentifier := Samples.apple;
          dataPrefix := Some (ArrayBuffer [x02; x15; x00]) |} = Some [x02; x15]
  /\ length [x02; x15] < length (buffer_of (ArrayBuffer [x02; x15; x00]))
  /\ checkManufacturerData (Samples.data_of [x02; x15])
       ([{| companyIdentifier := 6; dataPrefix := None |}]
        ++ {| companyIdentifier := Samples.apple;
              dataPrefix := Some (ArrayBuffer [x02; x15; x00]) |}
        :: [Samples.any_apple])
     = Throw (RangeError "Offset is outside the bounds of the DataView").
Proof.
  split; [vm_compute; reflexivity|].
  split; [vm_compute; reflexivity|].
  split; [simpl; lia|].
  apply (checkManufacturerData_overrun (Samples.data_of [x02; x15])
           [{| companyIdentifier := 6; dataPrefix := None |}] [Samples.any_apple]
           {| companyIdentifier := Samples.apple;
              dataPrefix := Some (ArrayBuffer [x02; x15; x00]) |}
           [x02; x15] (ArrayBuffer [x02; x15; x00])).
  - vm_compute; reflexivity.
  - vm_compute; reflexivity.
  - reflexivity.
  - simpl; lia.
Defined.

(** X4. A candidate that carries none of the companies listed is
    rejected without an exception, whatever the prefixes are. *)
Theorem checkManufacturerData_unknown_companies :
  forall (map : BluetoothManufacturerData)
         (filters : list BluetoothManufacturerDataFilter),
    Forall (fun filter => map !! companyIdentifier filter = None) filters ->
    checkManufacturerData map filters = Normal false.
Proof.
  intros map filters Hnone.
  induction Hnone as [|filter rest Hhead _ IH]; simpl; [reflexivity|].
  rewrite Hhead. exact IH.
Qed.

Lemma checkManufacturerData_unknown_companies_witness :
  Forall (fun filter => Samples.data_of [x02] !! companyIdentifier filter = None)
    [{| companyIdentifier := 6; dataPrefix := Some (ArrayBuffer [x01; x02; x03]) |}]
  /\ checkManufacturerData (Samples.data_of [x02])
       [{| companyIdentifier := 6; dataPrefix := Some (ArrayBuffer [x01; x02; x03]) |}]
     = Normal false.
Proof.
  assert (H : Forall (fun filter =>
                        Samples.data_of [x02] !! companyIdentifier filter = None)
                [{| companyIdentifier := 6;
                    dataPrefix := Some (ArrayBuffer [x01; x02; x03]) |}]).
  { constructor; [vm_compute; reflexivity | constructor]. }
  split; [exact H|].
  exact (checkManufacturerData_unknown_companies _ _ H).
Defined.

(** Folding entries of other companies into a map leaves the lookup of
    company [k] as it was. *)
Lemma collect_skips_other_companies (k : N) (entries : list (option ManufacturerData)) :
  forall m : BluetoothManufacturerData,
    Forall (other_company k) entries ->
    fold_left
      (fun (m : BluetoothManufacturerData) data =>
         match data with
         | Some x => <[md_id x := md_data x]> m
         | None => m
         end) entries m !! k
    = m !! k.
Proof.
  induction entries as [|entry rest IH]; intros m Hother; simpl; [reflexivity|].
  inversion Hother as [|? ? Hentry Hrest]; subst.
  rewrite (IH _ Hrest).
  destruct entry as [x|]; simpl in *; [|reflexivity].
  now apply lookup_insert_ne.
Qed.

(** X5. The manufacturer data map of a scan result holds, for a company,
    the data of the last entry the binding lists for it: earlier entries
    of the same company are overwritten and [undefined] entries are
    skipped. *)
Theorem collect_manufacturerData_last_wins :
  forall (d : Peripheral) (before after : list (option ManufacturerData))
         (x : ManufacturerData),
    peripheral_manufacturer_data d = before ++ Some x :: after ->
    Forall (other_company (md_id x)) after ->
    collect_manufacturerData d !! md_id x = Some (md_data x).
Proof.
  intros d before after x Hdata Hafter.
  unfold collect_manufacturerData. rewrite Hdata, fold_left_app. simpl.
  rewrite (collect_skips_other_companies _ _ _ Hafter).
  apply lookup_insert_eq.
Qed.

Lemma collect_manufacturerData_last_wins_witness :
  peripheral_manufacturer_data Scenarios.beacon
  = [Some {| md_id := 76; md_data := [x01] |}; None]
    ++ Some {| md_id := 76; md_data := [x02; x15] |}
    :: [Some {| md_id := 6; md_data := [x09] |}]
  /\ Forall (other_company 76) [Some {| md_id := 6; md_data := [x09] |}]
  /\ collect_manufacturerData Scenarios.beacon !! 76%N = Some [x02; x15].
Proof.
  assert (H : Forall (other_company 76) [Some {| md_id := 6; md_data := [x09] |}]).
  { constructor; [simpl; discriminate | constructor]. }
  split; [reflexivity|]. split; [exact H|].
  exact (collect_manufacturerData_last_wins Scenarios.beacon
           [Some {| md_id := 76; md_data := [x01] |}; None]
           [Some {| md_id := 6; md_data := [x09] |}]
           {| md_id := 76; md_data := [x02; x15] |} eq_refl H).
Defined.

(** X6. A company that no entry of the binding's list carries is absent
    from the map. *)
Theorem collect_manufacturerData_absent :
  forall (d : Peripheral) (k : N),
    Forall (other_company k) (peripheral_manufacturer_data d) ->
    collect_manufacturerData d !! k = None.
Proof.
  intros d k Hother.
  unfold collect_manufacturerData.
  rewrite (collect_skips_other_companies _ _ _ Hother).
  apply lookup_empty.
Qed.

Lemma collect_manufacturerData_absent_witness :
  Forall (other_company 9) (peripheral_manufacturer_data Scenarios.beacon)
  /\ collect_manufacturerData Scenarios.beacon !! 9%N = None.
Proof.
  assert (H : Forall (other_company 9) (peripheral_manufacturer_data Scenarios.beacon)).
  { repeat constructor; simpl; discriminate. }
  split; [exact H|].
  exact (collect_manufacturerData_absent Scenarios.beacon 9 H).
Defined.

(** ** Structured filters *)

Lemma prefix_length :
  forall p s : string, String.prefix p s = true -> String.length p <= String.length s.
Proof.
  induction p as [|a p IH]; intros s; [simpl; lia|].
  destruct s as [|b s]; [discriminate|].
  cbn [String.prefix String.length].
  destruct (Ascii.ascii_dec a b); [|discriminate].
  intros H. specialize (IH s H). lia.
Qed.

Lemma truthy_string_length (s : string) :
  truthy_string (Some s) = true -> 0 < String.length s.
Proof. destruct s; simpl; [discriminate | lia]. Qed.

(** When a non-empty prefix is a prefix of the device name, the name is
    not empty and not shorter than the prefix. *)
Lemma prefix_guards_pass (namePrefix : option string) (name : string) :
  truthy_string namePrefix = true ->
  String.prefix (default "" namePrefix) name = true ->
  negb (truthy_string (Some name))
  || (String.length name <? String.length (default "" namePrefix))%nat = false.
Proof.
  intros Htruthy Hstarts.
  destruct namePrefix as [p|]; [|discriminate]. simpl default in *.
  pose proof (prefix_length p name Hstarts) as Hlen.
  pose proof (truthy_string_length p Htruthy) as Hpos.
  assert (Hltb : (String.length name <? String.length p)%nat = false)
    by (apply Nat.ltb_ge; exact Hlen).
  rewrite Hltb.
  destruct name; simpl in *; [lia | reflexivity].
Qed.

(** X7. The filters are alternatives tried in order: a device is
    matched against a list of filters followed by another as against the
    first list, and against the second only when the first rejects it;
    an exception of the first list is the outcome. *)
Theorem _filterDevice_app :
  forall (first second : list BluetoothLEScanFilter) (info : RequestDeviceInfo),
    _filterDevice (first ++ second) info
    = match _filterDevice first info with
      | Normal false => _filterDevice second info
      | outcome => outcome
      end.
Proof.
  intros first second info.
  induction first as [|filter rest IH]; [reflexivity|].
  cbn [app _filterDevice].
  do 3 match goal with
       | |- (if ?c then _ else _) = _ => destruct c; [exact IH|]
       end.
  destruct (match filter_manufacturerData filter with
            | Some mds => checkManufacturerData (info_manufacturerData info) mds
            | None => Normal true
            end) as [[|]|e]; [|exact IH|reflexivity].
  destruct (filter_services filter); reflexivity.
Qed.

(** X8. For a filter without [services] and [manufacturerData] the
    outcome depends on two tests only: the filter's [name] is absent,
    empty or equal to the device name, and its [namePrefix] is absent,
    empty or a prefix of the device name. An empty string counts as
    absent, so the filter with no field or only empty strings accepts
    every device; the tests on the lengths and on an empty device name
    add nothing to the prefix test. *)
Theorem _filterDevice_by_name :
  forall (filter : BluetoothLEScanFilter) (rest : list BluetoothLEScanFilter)
         (info : RequestDeviceInfo),
    filter_services filter = None ->
    filter_manufacturerData filter = None ->
    _filterDevice (filter :: rest) info
    = if (negb (truthy_string (filter_name filter))
          || String.eqb (default "" (filter_name filter)) (info_name info))
         && (negb (truthy_string (filter_namePrefix filter))
             || String.prefix (default "" (filter_namePrefix filter)) (info_name info))
      then Normal true
      else _filterDevice rest info.
Proof.
  intros filter rest info Hservices Hmd.
  cbn [_filterDevice]. rewrite Hservices, Hmd.
  destruct (truthy_string (filter_name filter));
    destruct (String.eqb (default "" (filter_name filter)) (info_name info));
    cbn [negb andb orb]; try reflexivity;
    destruct (truthy_string (filter_namePrefix filter)) eqn:Hprefix;
    cbn [negb andb orb]; try reflexivity;
    destruct (String.prefix (default "" (filter_namePrefix filter)) (info_name info))
      eqn:Hstarts;
    try (rewrite (prefix_guards_pass _ _ Hprefix Hstarts); reflexivity);
    destruct (negb (truthy_string (Some (info_name info)))
              || (String.length (info_name info)
                  <? String.length (default "" (filter_namePrefix filter)))%nat);
    reflexivity.
Qed.

Lemma _filterDevice_by_name_witness :
  filter_services (Scenarios.named "") = None
  /\ filter_manufacturerData (Scenarios.named "") = None
  /\ _filterDevice [Scenarios.named ""] (scan_info Samples.widget_a) = Normal true.
Proof.
  split; [reflexivity|]. split; [reflexivity|].
  exact (_filterDevice_by_name (Scenarios.named "") [] (scan_info Samples.widget_a)
           eq_refl eq_refl).
Defined.

(** X9. Filtering by service never selects a device: when every filter
    lists [services], the outcome for any device is a rejection or an
    exception, never a match. *)
Theorem _filterDevice_services_never_match :
  forall (filters : list BluetoothLEScanFilter) (info : RequestDeviceInfo),
    Forall (fun filter => filter_services filter <> None) filters ->
    _filterDevice filters info <> Normal true.
Proof.
  intros filters info Hall.
  induction Hall as [|filter rest Hservices _ IH]; [discriminate|].
  cbn [_filterDevice].
  repeat match goal with
         | |- (if ?c then _ else _) <> _ => destruct c; [exact IH|]
         end.
  destruct (match filter_manufacturerData filter with
            | Some mds => checkManufacturerData (info_manufacturerData info) mds
            | None => Normal true
            end) as [[|]|e]; [|exact IH|discriminate].
  destruct (filter_services filter); [discriminate | contradiction].
Qed.

Lemma _filterDevice_services_never_match_witness :
  Forall (fun filter => filter_services filter <> None) [Scenarios.heart_rate_filter]
  /\ _filterDevice [Scenarios.heart_rate_filter] (scan_info Samples.widget_a)
     <> Normal true.
Proof.
  assert (H : Forall (fun filter => filter_services filter <> None)
                [Scenarios.heart_rate_filter]).
  { constructor; [discriminate | constructor]. }
  split; [exact H|].
  exact (_filterDevice_services_never_match [Scenarios.heart_rate_filter]
           (scan_info Samples.widget_a) H).
Defined.

(** ** Requests: which device, which registry *)

Section RequestLoopFacts.

Variable filterCb : RequestDeviceInfo -> Completion bool.

(** Results the filter rejects are passed over. *)
Lemma request_results_rejected (single : bool) (results : list Peripheral) :
  forall (rest : list Peripheral) (devices : list BluetoothDevice),
    Forall (fun p => filterCb (scan_info p) = Normal false) results ->
    request_results filterCb single (results ++ rest) devices
    = request_results filterCb single rest devices.
Proof.
  intros rest devices Hrejected.
  induction Hrejected as [|p results Hp _ IH]; [reflexivity|].
  cbn [app request_results]. unfold scan_info in Hp. rewrite Hp. exact IH.
Qed.

(** With [singleDevice] set, the first result the filter accepts ends the
    loop. *)
Lemma request_results_first (before after : list Peripheral) (d : Peripheral)
    (devices : list BluetoothDevice) :
  Forall (fun p => filterCb (scan_info p) = Normal false) before ->
  filterCb (scan_info d) = Normal true ->
  request_results filterCb true (before ++ d :: after) devices
  = Normal (devices ++ [device_of d]).
Proof.
  intros Hbefore Hd.
  rewrite (request_results_rejected true before (d :: after) devices Hbefore).
  cbn [request_results]. unfold scan_info in Hd. rewrite Hd. reflexivity.
Qed.

End RequestLoopFacts.

(** A filter was made, so [_request] runs one scan cycle on the selected
    adapter and then the loop over the results. *)
Lemma _request_with_filter :
  forall results options single this filterCb,
    _createFilter options = Normal filterCb ->
    _request results options single this
    = (request_results filterCb single results [],
       {| _adapter := _adapter this; _devices := _devices this;
          hub_calls := hub_calls this ++ scan_cycle_calls (_adapter this) |}).
Proof.
  intros results options single this filterCb Hcb.
  unfold _request. rewrite Hcb. unfold _createFilter in Hcb.
  destruct (opt_filters options), (opt_filter options); try discriminate;
    unfold hub_call, scan_cycle_calls; simpl; rewrite <- !app_assoc; reflexivity.
Qed.

(** The outcome of [_request] does not depend on the hub it runs on, and
    the registry and the selected adapter are not touched by it. *)
Lemma _request_outcome_independent :
  forall results options single this other,
    fst (_request results options single this)
    = fst (_request results options single other).
Proof.
  intros results options single this other. unfold _request.
  destruct (opt_filters options), (opt_filter options), (_createFilter options);
    reflexivity.
Qed.

Lemma _request_keeps_registry :
  forall results options single this,
    _devices (snd (_request results options single this)) = _devices this
    /\ _adapter (snd (_request results options single this)) = _adapter this.
Proof.
  intros results options single this. unfold _request.
  destruct (opt_filters options), (opt_filter options), (_createFilter options);
    split; reflexivity.
Qed.

(** X10. Without a signal, when the filter rejects the scan results
    before [d] and accepts [d], [requestDevice] resolves to the device
    built from [d] - its [id] is the peripheral's address, its [name] the
    peripheral's identifier, its server not connected - whatever follows
    [d]; that device is appended to the registry, and the adapter has
    been started, stopped and asked for its results once. *)
Theorem requestDevice_first_match :
  forall (before after : list Peripheral) (d : Peripheral) (fires : bool)
         (options : RequestDeviceOptions) (this : Bluetooth)
         (filterCb : RequestDeviceInfo -> Completion bool),
    opt_signal options = None ->
    _createFilter options = Normal filterCb ->
    Forall (fun p => filterCb (scan_info p) = Normal false) before ->
    filterCb (scan_info d) = Normal true ->
    requestDevice (before ++ d :: after) fires options this
    = (Normal (device_of d),
       {| _adapter := _adapter this;
          _devices := _devices this ++ [device_of d];
          hub_calls := hub_calls this ++ scan_cycle_calls (_adapter this) |})
    /\ _id (device_of d) = peripheral_address d
    /\ _name (device_of d) = peripheral_identifier d
    /\ _gatt (device_of d) = new_BluetoothRemoteGATTServer.
Proof.
  intros before after d fires options this filterCb Hsignal Hcb Hbefore Hd.
  split; [|repeat split].
  unfold requestDevice.
  rewrite (_request_with_filter _ _ _ _ _ Hcb), Hsignal.
  rewrite (request_results_first filterCb before after d [] Hbefore Hd).
  reflexivity.
Qed.

Lemma requestDevice_first_match_witness :
  opt_signal Scenarios.only_widget_b = None
  /\ _createFilter Scenarios.only_widget_b = Normal Scenarios.widget_b_only
  /\ Forall (fun p => Scenarios.widget_b_only (scan_info p) = Normal false)
       [Samples.widget_a]
  /\ Scenarios.widget_b_only (scan_info Samples.widget_b) = Normal true
  /\ fst (requestDevice ([Samples.widget_a] ++ Samples.widget_b :: [Samples.named_c])
            false Scenarios.only_widget_b Samples.hub)
     = Normal (device_of Samples.widget_b).
Proof.
  assert (H : Forall (fun p => Scenarios.widget_b_only (scan_info p) = Normal false)
                [Samples.widget_a]).
  { constructor; [reflexivity | constructor]. }
  split; [reflexivity|]. split; [reflexivity|]. split; [exact H|].
  split; [reflexivity|].
  rewrite (proj1 (requestDevice_first_match [Samples.widget_a] [Samples.named_c]
                    Samples.widget_b false Scenarios.only_widget_b Samples.hub
                    Scenarios.widget_b_only eq_refl eq_refl H eq_refl)).
  reflexivity.
Defined.

(** X11. Without a signal, when the filter rejects every scan result (or
    there is none), [requestDevice] and [requestDevices] throw their
    "no devices found" [DOMException] after one scan cycle, and the
    registry is left as it was. *)
Theorem request_without_match :
  forall (results : list Peripheral) (fires : bool)
         (options : RequestDeviceOptions) (this : Bluetooth)
         (filterCb : RequestDeviceInfo -> Completion bool),
    opt_signal options = None ->
    _createFilter options = Normal filterCb ->
    Forall (fun p => filterCb (scan_info p) = Normal false) results ->
    requestDevice results fires options this
    = (Throw (DOMException "requestDevice error: no devices found"),
       {| _adapter := _adapter this; _devices := _devices this;
          hub_calls := hub_calls this ++ scan_cycle_calls (_adapter this) |})
    /\ requestDevices results fires options this
       = (Throw (DOMException "requestDevices error: no devices found"),
          {| _adapter := _adapter this; _devices := _devices this;
             hub_calls := hub_calls this ++ scan_cycle_calls (_adapter this) |}).
Proof.
  intros results fires options this filterCb Hsignal Hcb Hrejected.
  assert (Hloop : request_results filterCb true results [] = Normal []).
  { rewrite <- (app_nil_r results).
    rewrite (request_results_rejected filterCb true results [] [] Hrejected).
    reflexivity. }
  unfold requestDevice, requestDevices.
  rewrite (_request_with_filter _ _ _ _ _ Hcb), Hsignal, Hloop.
  split; reflexivity.
Qed.

Lemma request_without_match_witness :
  opt_signal Scenarios.only_widget_b = None
  /\ _createFilter Scenarios.only_widget_b = Normal Scenarios.widget_b_only
  /\ Forall (fun p => Scenarios.widget_b_only (scan_info p) = Normal false)
       [Samples.widget_a; Samples.named_c]
  /\ fst (requestDevice [Samples.widget_a; Samples.named_c] false
            Scenarios.only_widget_b Samples.hub)
     = Throw (DOMException "requestDevice error: no devices found").
Proof.
  assert (H : Forall (fun p => Scenarios.widget_b_only (scan_info p) = Normal false)
                [Samples.widget_a; Samples.named_c]).
  { repeat constructor. }
  split; [reflexivity|]. split; [reflexivity|]. split; [exact H|].
  rewrite (proj1 (request_without_match [Samples.widget_a; Samples.named_c] false
                    Scenarios.only_widget_b Samples.hub Scenarios.widget_b_only
                    eq_refl eq_refl H)).
  reflexivity.
Defined.

(** X12. With neither [filter] nor [filters], [_request] throws a
    [TypeError] before any call on the adapter; [requestDevice] and
    [requestDevices] then fail and leave the hub exactly as it was. *)
Theorem request_without_filter :
  forall (results : list Peripheral) (fires single : bool)
         (options : RequestDeviceOptions) (this : Bluetooth),
    opt_filters options = None ->
    opt_filter options = None ->
    _request results options single this
    = (Throw (TypeError "filter or filters must be given"), this)
    /\ is_normal (fst (requestDevice results fires options this)) = false
    /\ snd (requestDevice results fires options this) = this
    /\ is_normal (fst (requestDevices results fires options this)) = false
    /\ snd (requestDevices results fires options this) = this.
Proof.
  intros results fires single options this Hfilters Hfilter.
  unfold requestDevice, requestDevices, _request. rewrite Hfilters, Hfilter.
  destruct (opt_signal options); [destruct fires|]; repeat split.
Qed.

Lemma request_without_filter_witness :
  opt_filters Scenarios.no_filter = None
  /\ opt_filter Scenarios.no_filter = None
  /\ _request [Samples.widget_a] Scenarios.no_filter true Samples.hub
     = (Throw (TypeError "filter or filters must be given"), Samples.hub).
Proof.
  split; [reflexivity|]. split; [reflexivity|].
  exact (proj1 (request_without_filter [Samples.widget_a] false true
                  Scenarios.no_filter Samples.hub eq_refl eq_refl)).
Defined.

(** X13. The registry keeps no device out: a [requestDevice] that
    resolved to a device resolves to the same device when repeated over
    the same scan results, and the registry then holds that device
    twice more than before the first call. *)
Theorem requestDevice_registers_again :
  forall (results : list Peripheral) (fires : bool)
         (options : RequestDeviceOptions) (this this' : Bluetooth)
         (device : BluetoothDevice),
    requestDevice results fires options this = (Normal device, this') ->
    fst (requestDevice results fires options this') = Normal device
    /\ _devices (snd (requestDevice results fires options this'))
       = _devices this ++ [device; device].
Proof.
  intros results fires options this this' device H.
  pose proof (_request_outcome_independent results options true this this') as Hsame.
  pose proof (_request_keeps_registry results options true this) as [Hreg _].
  pose proof (_request_keeps_registry results options true this') as [Hreg' _].
  unfold requestDevice in *.
  destruct (_request results options true this) as [p this1].
  destruct (_request results options true this') as [p' this1'].
  simpl in Hsame, Hreg, Hreg'. subst p'.
  destruct (match opt_signal options with
            | Some _ => abortable p fires
            | None => p
            end) as [[|d0 devices]|e]; try discriminate.
  injection H as Hd Hthis. subst d0 this'.
  simpl in *. rewrite Hreg', Hreg, <- app_assoc. split; reflexivity.
Qed.

Lemma requestDevice_registers_again_witness :
  requestDevice [Samples.widget_a] false Samples.widget_prefix Samples.hub
  = (Normal (device_of Samples.widget_a),
     snd (requestDevice [Samples.widget_a] false Samples.widget_prefix Samples.hub))
  /\ _devices (snd (requestDevice [Samples.widget_a] false Samples.widget_prefix
                      (snd (requestDevice [Samples.widget_a] false
                              Samples.widget_prefix Samples.hub))))
     = _devices Samples.hub ++ [device_of Samples.widget_a; device_of Samples.widget_a].
Proof.
  assert (H : requestDevice [Samples.widget_a] false Samples.widget_prefix Samples.hub
              = (Normal (device_of Samples.widget_a),
                 snd (requestDevice [Samples.widget_a] false Samples.widget_prefix
                        Samples.hub))).
  { vm_compute. reflexivity. }
  split; [exact H|].
  exact (proj2 (requestDevice_registers_again _ _ _ _ _ _ H)).
Defined.

(** X14. [requestDevices] resolves exactly when [requestDevice] does on
    the same input, to the array holding the one device [requestDevice]
    resolves to, and both leave the hub in the same state. *)
Theorem requestDevices_as_requestDevice :
  forall (results : list Peripheral) (fires : bool)
         (options : RequestDeviceOptions) (this : Bluetooth),
    is_normal (fst (requestDevices results fires options this))
    = is_normal (fst (requestDevice results fires options this))
    /\ match fst (requestDevice results fires options this) with
       | Normal device =>
           fst (requestDevices results fires options this) = Normal [device]
       | Throw _ => True
       end
    /\ snd (requestDevices results fires options this)
       = snd (requestDevice results fires options this).
Proof.
  intros results fires options this.
  unfold requestDevices, requestDevice.
  destruct (_request results options true this) as [p this1] eqn:Hreq.
  assert (Hp : forall found, p = Normal found -> length found <= 1).
  { intros found ->. apply (_request_single _ _ _ _ _ Hreq). }
  destruct (opt_signal options); [destruct fires|]; simpl;
    try (repeat split; fail);
    destruct p as [[|d0 [|d1 l]]|e]; simpl; repeat split;
    specialize (Hp _ eq_refl); simpl in Hp; lia.
Qed.

(** ** Continuous scan: what is yielded *)

(** What is known of a yielded device: it is the device built from a
    peripheral of some scan cycle that the filter accepted. *)
Section ScanYieldFacts.

Variable adapter : nat.
Variable filterCb : RequestDeviceInfo -> Completion bool.

Lemma scan_results_sound (results : list Peripheral) :
  forall ids yielded ids' e,
    scan_results filterCb results ids = (yielded, ids', e) ->
    Forall (fun device =>
              In (_peripheral device) results
              /\ device = device_of (_peripheral device)
              /\ filterCb (scan_info (_peripheral device)) = Normal true) yielded.
Proof.
  induction results as [|d rest IH]; intros ids yielded ids' e H; cbn [scan_results] in H.
  - injection H as <- _ _. constructor.
  - assert (Hweaken : forall ys,
              Forall (fun device =>
                        In (_peripheral device) rest
                        /\ device = device_of (_peripheral device)
                        /\ filterCb (scan_info (_peripheral device)) = Normal true) ys ->
              Forall (fun device =>
                        In (_peripheral device) (d :: rest)
                        /\ device = device_of (_peripheral device)
                        /\ filterCb (scan_info (_peripheral device)) = Normal true) ys).
    { intros ys Hys. eapply Forall_impl; [exact Hys|].
      intros device (Hin & Hdev & Hacc). split; [now right | now split]. }
    destruct (includes ids (peripheral_identifier d)).
    + apply Hweaken. apply (IH _ _ _ _ H).
    + destruct (filterCb _) as [[|]|ex] eqn:Hcb.
      * destruct (scan_results filterCb rest (ids ++ [peripheral_identifier d]))
          as [[ys0 ids0] e0] eqn:Hrec.
        injection H as <- _ _. constructor.
        -- split; [now left|]. split; [reflexivity | exact Hcb].
        -- apply Hweaken. apply (IH _ _ _ _ Hrec).
      * apply Hweaken. apply (IH _ _ _ _ H).
      * injection H as <- _ _. constructor.
Qed.

Lemma scan_wait_sound (ticks : list ScanTick) :
  forall st yielded st' ending,
    scan_wait adapter filterCb ticks st = (yielded, st', ending) ->
    Forall (fun device =>
              (exists results,
                  In (CycleResults results) ticks /\ In (_peripheral device) results)
              /\ device = device_of (_peripheral device)
              /\ filterCb (scan_info (_peripheral device)) = Normal true) yielded.
Proof.
  induction ticks as [|tick rest IH]; intros st yielded st' ending H;
    cbn [scan_wait] in H.
  - injection H as <- _ _. constructor.
  - assert (Hweaken : forall ys,
              Forall (fun device =>
                        (exists results,
                            In (CycleResults results) rest
                            /\ In (_peripheral device) results)
                        /\ device = device_of (_peripheral device)
                        /\ filterCb (scan_info (_peripheral device)) = Normal true) ys ->
              Forall (fun device =>
                        (exists results,
                            In (CycleResults results) (tick :: rest)
                            /\ In (_peripheral device) results)
                        /\ device = device_of (_peripheral device)
                        /\ filterCb (scan_info (_peripheral device)) = Normal true) ys).
    { intros ys Hys. eapply Forall_impl; [exact Hys|].
      intros device ((results & Hin & Hd) & Hdev & Hacc).
      split; [exists results; split; [now right | exact Hd] | now split]. }
    destruct tick as [|results].
    + apply Hweaken. apply (IH _ _ _ _ H).
    + simpl in H.
      destruct (scan_results filterCb results (scan_ids st))
        as [[ys0 ids0] oe] eqn:Hcycle.
      assert (Hcycle_ok :
                Forall (fun device =>
                          (exists results0,
                              In (CycleResults results0) (CycleResults results :: rest)
                              /\ In (_peripheral device) results0)
                          /\ device = device_of (_peripheral device)
                          /\ filterCb (scan_info (_peripheral device)) = Normal true) ys0).
      { eapply Forall_impl; [exact (scan_results_sound _ _ _ _ _ Hcycle)|].
        intros device (Hin & Hdev & Hacc).
        split; [exists results; split; [now left | exact Hin] | now split]. }
      destruct oe as [e|].
      * injection H as <- _ _. exact Hcycle_ok.
      * simpl in H. destruct (scan_done st); simpl in H.
        -- injection H as <- _ _. exact Hcycle_ok.
        -- match type of H with
           | context [scan_wait adapter filterCb rest ?s] =>
               destruct (scan_wait adapter filterCb rest s)
                 as [[ys1 st1] ending1] eqn:Hrec
           end.
           injection H as <- _ _.
           apply Forall_app. split; [exact Hcycle_ok|].
           apply Hweaken. apply (IH _ _ _ _ Hrec).
Qed.

(** Every peripheral of a cycle that the filter accepts has its
    identifier in [ids] when the cycle ends without an exception. *)
Lemma scan_results_complete (results : list Peripheral) :
  forall ids yielded ids',
    scan_results filterCb results ids = (yielded, ids', None) ->
    NoDup ids ->
    forall d, In d results -> filterCb (scan_info d) = Normal true ->
              In (peripheral_identifier d) ids'.
Proof.
  induction results as [|d0 rest IH]; intros ids yielded ids' H Hnd d Hin Hacc;
    [destruct Hin|].
  pose proof (scan_results_ids filterCb _ _ _ _ _ H Hnd) as [Hids _].
  cbn [scan_results] in H.
  destruct (includes ids (peripheral_identifier d0)) eqn:Hinc.
  - destruct Hin as [<-|Hin].
    + rewrite Hids. apply in_or_app. left.
      unfold includes in Hinc. apply existsb_exists in Hinc as (x & Hx & Heq).
      apply String.eqb_eq in Heq. now subst x.
    + apply (IH _ _ _ H Hnd d Hin Hacc).
  - destruct (filterCb {| info_name := peripheral_identifier d0;
                          info_address := peripheral_address d0;
                          info_manufacturerData := collect_manufacturerData d0 |})
      as [[|]|ex] eqn:Hcb.
    + destruct (scan_results filterCb rest (ids ++ [peripheral_identifier d0]))
        as [[ys0 ids0] e0] eqn:Hrec.
      injection H as _ Hids0 He0. subst ids0 e0.
      assert (Hnd' : NoDup (ids ++ [peripheral_identifier d0])).
      { apply NoDup_snoc; [exact Hnd | now apply includes_false]. }
      destruct Hin as [<-|Hin].
      * pose proof (scan_results_ids filterCb _ _ _ _ _ Hrec Hnd') as [Hids' _].
        rewrite Hids'. apply in_or_app. left. apply in_or_app. right. now left.
      * apply (IH _ _ _ Hrec Hnd' d Hin Hacc).
    + destruct Hin as [<-|Hin].
      * unfold scan_info in Hacc. congruence.
      * apply (IH _ _ _ H Hnd d Hin Hacc).
    + discriminate.
Qed.

Lemma scan_wait_complete (ticks : list ScanTick) :
  forall st yielded st',
    scan_wait adapter filterCb ticks st = (yielded, st', Suspended) ->
    NoDup (scan_ids st) ->
    forall results d,
      In (CycleResults results) ticks -> In d results ->
      filterCb (scan_info d) = Normal true ->
      In (peripheral_identifier d) (scan_ids st').
Proof.
  induction ticks as [|tick rest IH]; intros st yielded st' H Hnd results d Hin Hd Hacc;
    [destruct Hin|].
  cbn [scan_wait] in H.
  destruct tick as [|results0].
  - destruct Hin as [Habs|Hin]; [discriminate|].
    apply (IH _ _ _ H) with (results := results);
      [now rewrite scan_ids_signal_abort | exact Hin | exact Hd | exact Hacc].
  - simpl in H.
    destruct (scan_results filterCb results0 (scan_ids st))
      as [[ys0 ids0] [e|]] eqn:Hcycle; [discriminate|].
    pose proof (scan_results_ids filterCb _ _ _ _ _ Hcycle Hnd) as [_ Hnd0].
    simpl in H. destruct (scan_done st); simpl in H; [discriminate|].
    match type of H with
    | context [scan_wait adapter filterCb rest ?s] =>
        destruct (scan_wait adapter filterCb rest s)
          as [[ys1 st1] ending1] eqn:Hrec
    end.
    injection H as _ Hst Hend. subst st1 ending1.
    destruct Hin as [Heq|Hin].
    + injection Heq as ->.
      pose proof (scan_wait_ids adapter filterCb _ _ _ _ _ Hrec Hnd0) as [Hids _].
      simpl in Hids. rewrite Hids. apply in_or_app. left.
      apply (scan_results_complete _ _ _ _ Hcycle Hnd d Hd Hacc).
    + apply (IH _ _ _ Hrec Hnd0 results d Hin Hd Hacc).
Qed.

End ScanYieldFacts.

(** [scan] throws before its loop, or runs the loop with the filter that
    [_createFilter] made. *)
Lemma scan_cases_filter :
  forall options ticks this,
    (exists st e, scan options ticks this = ([], st, Thrown e))
    \/ (exists filterCb st,
          _createFilter options = Normal filterCb
          /\ scan_done st = false /\ scan_ids st = []
          /\ scan options ticks this = scan_wait (_adapter this) filterCb ticks st).
Proof.
  intros options ticks this. unfold scan.
  destruct (_createFilter options) as [cb|e] eqn:Hcb;
    destruct (opt_filters options), (opt_filter options);
    try (left; eexists; eexists; reflexivity);
    (destruct (match opt_signal options with
               | Some signal => aborted signal
               | None => false
               end); [left; eexists; eexists; reflexivity|]);
    simpl;
    first [ right; exists cb; eexists;
            split; [reflexivity|]; split; [|split; [|reflexivity]]; reflexivity
          | left; eexists; eexists; reflexivity ].
Qed.

(** X15. Every device the continuous scan yields is the device built
    from a peripheral that some cycle reported and that the filter made
    from the options accepted: its [id] is that peripheral's address and
    its [name] that peripheral's identifier. *)
Theorem scan_yields_accepted_results :
  forall (options : RequestDeviceOptions) (ticks : list ScanTick) (this : Bluetooth),
    Forall (fun device =>
              (exists results,
                  In (CycleResults results) ticks /\ In (_peripheral device) results)
              /\ _id device = peripheral_address (_peripheral device)
              /\ _name device = peripheral_identifier (_peripheral device)
              /\ exists filterCb,
                   _createFilter options = Normal filterCb
                   /\ filterCb (scan_info (_peripheral device)) = Normal true)
      (fst (fst (scan options ticks this))).
Proof.
  intros options ticks this.
  destruct (scan_cases_filter options ticks this)
    as [(st & e & Heq) | (cb & st & Hcb & _ & _ & Heq)]; rewrite Heq.
  - constructor.
  - destruct (scan_wait (_adapter this) cb ticks st) as [[ys st'] ending] eqn:Hrun.
    simpl. eapply Forall_impl; [exact (scan_wait_sound _ _ _ _ _ _ _ Hrun)|].
    intros device (Hin & Hdev & Hacc).
    split; [exact Hin|].
    split; [rewrite Hdev; reflexivity|]. split; [rewrite Hdev; reflexivity|].
    exists cb. split; [exact Hcb | exact Hacc].
Qed.

(** X16. While the continuous scan has not thrown, every peripheral [d]
    that a completed cycle reported and the filter accepted is
    represented by its name: a device built from a reported peripheral
    with the identifier of [d] has been yielded. It is the device of [d]
    itself when no other reported peripheral shares that identifier. *)
Theorem scan_yields_every_accepted_name :
  forall (options : RequestDeviceOptions) (ticks : list ScanTick) (this : Bluetooth)
         (filterCb : RequestDeviceInfo -> Completion bool)
         (results : list Peripheral) (d : Peripheral),
    _createFilter options = Normal filterCb ->
    snd (scan options ticks this) = Suspended ->
    In (CycleResults results) ticks ->
    In d results ->
    filterCb (scan_info d) = Normal true ->
    (exists p,
        In (device_of p) (fst (fst (scan options ticks this)))
        /\ peripheral_identifier p = peripheral_identifier d
        /\ exists reported, In (CycleResults reported) ticks /\ In p reported)
    /\ ((forall reported p,
            In (CycleResults reported) ticks -> In p reported ->
            peripheral_identifier p = peripheral_identifier d -> p = d) ->
        In (device_of d) (fst (fst (scan options ticks this)))).
Proof.
  intros options ticks this filterCb results d Hcb Hend Hin Hd Hacc.
  assert (Hsome : exists p,
             In (device_of p) (fst (fst (scan options ticks this)))
             /\ peripheral_identifier p = peripheral_identifier d
             /\ exists reported, In (CycleResults reported) ticks /\ In p reported).
  { destruct (scan_cases_filter options ticks this)
      as [(st & e & Heq) | (cb & st & Hcb' & _ & Hids & Heq)]; rewrite Heq in *.
    - discriminate.
    - rewrite Hcb in Hcb'. injection Hcb' as <-.
      destruct (scan_wait (_adapter this) filterCb ticks st)
        as [[ys st'] ending] eqn:Hrun.
      simpl in Hend. subst ending. simpl.
      assert (Hnd : NoDup (scan_ids st)) by (rewrite Hids; apply NoDup_nil_2).
      pose proof (scan_wait_ids _ _ _ _ _ _ _ Hrun Hnd) as [Hfinal _].
      rewrite Hids in Hfinal. simpl in Hfinal.
      pose proof (scan_wait_complete _ _ _ _ _ _ Hrun Hnd results d Hin Hd Hacc)
        as Hname.
      rewrite Hfinal in Hname. apply in_map_iff in Hname as (device & Hdname & Hdev).
      pose proof (scan_wait_sound _ _ _ _ _ _ _ Hrun) as Hsound.
      rewrite Forall_forall in Hsound.
      assert (Hdev' : device ∈ ys) by (apply list_elem_of_In; exact Hdev).
      destruct (Hsound device Hdev') as ((reported & Hrep & Hp) & Hbuilt & _).
      exists (_peripheral device). split; [rewrite <- Hbuilt; exact Hdev|].
      split; [|exists reported; split; assumption].
      rewrite <- Hdname, Hbuilt. reflexivity. }
  split; [exact Hsome|].
  intros Hunique. destruct Hsome as (p & Hyield & Hname & reported & Hrep & Hp).
  rewrite <- (Hunique reported p Hrep Hp Hname). exact Hyield.
Qed.

Lemma scan_yields_every_accepted_name_witness :
  _createFilter Scenarios.only_widget_b = Normal Scenarios.widget_b_only
  /\ snd (scan Scenarios.only_widget_b
            [CycleResults [Samples.widget_a; Samples.widget_b]] Samples.hub)
     = Suspended
  /\ In (CycleResults [Samples.widget_a; Samples.widget_b])
       [CycleResults [Samples.widget_a; Samples.widget_b]]
  /\ In Samples.widget_b [Samples.widget_a; Samples.widget_b]
  /\ Scenarios.widget_b_only (scan_info Samples.widget_b) = Normal true
  /\ In (device_of Samples.widget_b)
       (fst (fst (scan Scenarios.only_widget_b
                    [CycleResults [Samples.widget_a; Samples.widget_b]]
                    Samples.hub))).
Proof.
  split; [reflexivity|]. split; [reflexivity|].
  split; [now left|]. split; [right; now left|]. split; [reflexivity|].
  apply (scan_yields_every_accepted_name Scenarios.only_widget_b
           [CycleResults [Samples.widget_a; Samples.widget_b]] Samples.hub
           Scenarios.widget_b_only [Samples.widget_a; Samples.widget_b]
           Samples.widget_b eq_refl eq_refl).
  - now left.
  - right; now left.
  - reflexivity.
  - intros reported p [Heq|[]] Hp Hname. injection Heq as <-.
    destruct Hp as [<-|[<-|[]]]; [discriminate Hname | reflexivity].
Defined.

(** X17. The continuous scan gives up before touching the adapter when
    the options carry neither [filter] nor [filters], or when the signal
    is already aborted: nothing is yielded, no call is made, and the
    exception is the [TypeError] in the first case (checked first) and
    the [DOMException] otherwise. *)
Theorem scan_fails_before_scanning :
  forall (options : RequestDeviceOptions) (ticks : list ScanTick) (this : Bluetooth),
    (opt_filters options = None /\ opt_filter options = None)
    \/ (exists signal, opt_signal options = Some signal /\ aborted signal = true) ->
    scan options ticks this
    = ([],
       {| scan_done := false; scan_ids := []; scan_listener := false;
          scan_calls := hub_calls this |},
       Thrown (match opt_filters options, opt_filter options with
               | None, None => TypeError "filter or filters must be given"
               | _, _ => DOMException "Operation was canceled"
               end)).
Proof.
  intros options ticks this [[Hfilters Hfilter] | (signal & Hsignal & Haborted)];
    unfold scan.
  - rewrite Hfilters, Hfilter. reflexivity.
  - rewrite Hsignal, Haborted.
    destruct (opt_filters options), (opt_filter options); reflexivity.
Qed.

Lemma scan_fails_before_scanning_witness :
  ((opt_filters Scenarios.no_filter = None /\ opt_filter Scenarios.no_filter = None)
   \/ (exists signal,
         opt_signal Scenarios.no_filter = Some signal /\ aborted signal = true))
  /\ scan Scenarios.no_filter [CycleResults [Samples.widget_a]] Samples.hub
     = ([],
        {| scan_done := false; scan_ids := []; scan_listener := false;
           scan_calls := [] |},
        Thrown (TypeError "filter or filters must be given")).
Proof.
  assert (H : (opt_filters Scenarios.no_filter = None
               /\ opt_filter Scenarios.no_filter = None)
              \/ (exists signal,
                    opt_signal Scenarios.no_filter = Some signal
                    /\ aborted signal = true)).
  { left. split; reflexivity. }
  split; [exact H|].
  exact (scan_fails_before_scanning Scenarios.no_filter
           [CycleResults [Samples.widget_a]] Samples.hub H).
Defined.

(** ** GATT server over its lifetime *)

Lemma getPrimaryService_keeps_server :
  forall bindings getServiceUUID uuid this w,
    snd (fst (getPrimaryService bindings getServiceUUID uuid this w)) = this
    /\ snd (getPrimaryService bindings getServiceUUID uuid this w) = w.
Proof.
  intros bindings getServiceUUID uuid this w. unfold getPrimaryService.
  destruct (connected this); simpl; [|split; reflexivity].
  destruct (truthy_uuid uuid); simpl; [|split; reflexivity].
  pose proof (getPrimaryServices_makes_no_call bindings getServiceUUID uuid this w)
    as [Hthis Hw].
  destruct (getPrimaryServices bindings getServiceUUID uuid this w) as [[r this1] w1].
  simpl in Hthis, Hw. subst this1 w1.
  destruct r as [[|s l]|e]; split; reflexivity.
Qed.

Lemma server_step_keeps_cache_empty (getServiceUUID : UUID -> Completion string) :
  forall (c : ServerCall) (this : BluetoothRemoteGATTServer) (w : Ambient),
    _services this = [] ->
    _services (fst (server_step getServiceUUID (this, w) c)) = [].
Proof.
  intros c this w Hempty. destruct c as [b| | |b uuid|b uuid]; cbn [server_step].
  - unfold connect. destruct (connected this); [exact Hempty|].
    destruct (connect_result b); simpl; [reflexivity | exact Hempty].
  - exact Hempty.
  - unfold native_disconnected.
    destruct (disconnected_callback w) as [[]|]; exact Hempty.
  - pose proof (getPrimaryServices_makes_no_call b getServiceUUID uuid this w) as [H _].
    destruct (getPrimaryServices b getServiceUUID uuid this w) as [[r this1] w1].
    simpl in *. now subst this1.
  - pose proof (getPrimaryService_keeps_server b getServiceUUID uuid this w) as [H _].
    destruct (getPrimaryService b getServiceUUID uuid this w) as [[r this1] w1].
    simpl in *. now subst this1.
Qed.

Lemma server_run_keeps_cache_empty (getServiceUUID : UUID -> Completion string) :
  forall (trace : list ServerCall) (this : BluetoothRemoteGATTServer) (w : Ambient),
    _services this = [] ->
    _services (fst (server_run getServiceUUID trace (this, w))) = [].
Proof.
  unfold server_run.
  induction trace as [|c rest IH]; intros this w Hempty; [exact Hempty|].
  cbn [fold_left].
  pose proof (server_step_keeps_cache_empty getServiceUUID c this w Hempty) as Hstep.
  destruct (server_step getServiceUUID (this, w) c) as [this1 w1].
  apply IH. exact Hstep.
Qed.

(** X19. Whatever is done with a server from its construction on -
    connecting, disconnecting, native disconnections, service lookups, in
    any order and with any answers of the binding - its service cache is
    empty. Hence [getPrimaryService] never resolves, and
    [getPrimaryServices()] resolves to the empty array whenever the
    server is connected. *)
Theorem server_never_finds_a_service :
  forall (getServiceUUID : UUID -> Completion string) (trace : list ServerCall)
         (w : Ambient) (bindings : Bindings) (uuid : option UUID),
    let '(this, w') :=
      server_run getServiceUUID trace (new_BluetoothRemoteGATTServer, w) in
    _services this = []
    /\ is_normal (fst (fst (getPrimaryService bindings getServiceUUID uuid this w')))
       = false
    /\ fst (fst (getPrimaryServices bindings getServiceUUID None this w'))
       = if connected this then Normal [] else Throw (Error "Device not connected").
Proof.
  intros getServiceUUID trace w bindings uuid.
  pose proof (server_run_keeps_cache_empty getServiceUUID trace
                new_BluetoothRemoteGATTServer w eq_refl) as Hempty.
  destruct (server_run getServiceUUID trace (new_BluetoothRemoteGATTServer, w))
    as [this w'].
  simpl in Hempty. split; [exact Hempty|]. split.
  - unfold getPrimaryService, getPrimaryServices.
    destruct (connected this); simpl; [|reflexivity].
    destruct uuid as [u|]; [|reflexivity].
    destruct (truthy_uuid (Some u)); simpl; [|reflexivity].
    rewrite Hempty. reflexivity.
  - unfold getPrimaryServices.
    destruct (connected this); simpl; [|reflexivity].
    rewrite Hempty. reflexivity.
Qed.

(** X20. [disconnect()] may be called in any state: it calls the
    binding once, dispatches no event and leaves the server not
    connected. A [connect()] that follows is never refused as "already
    connected": it resolves to a connected server with an empty cache if
    the binding accepts, and throws "Device refused to connect"
    otherwise. *)
Theorem connect_after_disconnect :
  forall (bindings : Bindings) (this : BluetoothRemoteGATTServer) (w : Ambient),
    let '(this1, w1) := disconnect this w in
    connected this1 = false
    /\ calls w1 = calls w ++ [simpleble_peripheral_disconnect]
    /\ events w1 = events w
    /\ fst (fst (connect bindings this1 w1))
       = if connect_result bindings
         then Normal {| _connected := true; _services := [] |}
         else Throw (Error "Device refused to connect").
Proof.
  intros bindings this w. unfold disconnect, connect. simpl.
  repeat split. destruct (connect_result bindings); reflexivity.
Qed.

(** X21. After a [connect()] that resolved, a second [connect()] throws
    "Device already connected" without calling the binding or
    dispatching an event, whatever the binding would answer; once the
    binding has run the disconnection callback, [connect()] goes to the
    binding again. *)
Theorem connect_twice :
  forall (bindings again : Bindings) (this this' result : BluetoothRemoteGATTServer)
         (w w' : Ambient),
    connect bindings this w = (Normal result, this', w') ->
    connect again this' w' = (Throw (Error "Device already connected"), this', w')
    /\ fst (fst (connect again (native_disconnected this' w') w'))
       = if connect_result again
         then Normal {| _connected := true; _services := [] |}
         else Throw (Error "Device refused to connect").
Proof.
  intros bindings again this this' result w w' H.
  unfold connect in H.
  destruct (connected this); [discriminate|].
  destruct (connect_result bindings); simpl in H; [|discriminate].
  injection H as _ <- <-.
  split; [reflexivity|].
  unfold native_disconnected, connect. simpl.
  destruct (connect_result again); reflexivity.
Qed.

Lemma connect_twice_witness :
  connect Samples.accepting new_BluetoothRemoteGATTServer quiet
  = (Normal Samples.connected_server, Samples.connected_server,
     snd (connect Samples.accepting new_BluetoothRemoteGATTServer quiet))
  /\ fst (fst (connect Samples.accepting Samples.connected_server
                 (snd (connect Samples.accepting new_BluetoothRemoteGATTServer quiet))))
     = Throw (Error "Device already connected").
Proof.
  assert (H : connect Samples.accepting new_BluetoothRemoteGATTServer quiet
              = (Normal Samples.connected_server, Samples.connected_server,
                 snd (connect Samples.accepting new_BluetoothRemoteGATTServer quiet))).
  { reflexivity. }
  split; [exact H|].
  rewrite (proj1 (connect_twice Samples.accepting Samples.accepting _ _ _ _ _ H)).
  reflexivity.
Defined.

(** ** Characteristic lookup *)

Section UniqueUuid.

Context {A : Type} (uuid_of : A -> string).

Lemma filter_none (c : string) (l : list A) :
  ~ In c (List.map uuid_of l) ->
  List.filter (fun x => String.eqb (uuid_of x) c) l = [].
Proof.
  induction l as [|y l IH]; intros Hnin; simpl; [reflexivity|].
  destruct (String.eqb (uuid_of y) c) eqn:Heq.
  - apply String.eqb_eq in Heq. exfalso. apply Hnin. now left.
  - apply IH. intros Hin. apply Hnin. now right.
Qed.

(** In a list without two elements of the same UUID, filtering by the
    UUID of an element keeps that element alone. *)
Lemma filter_unique (x : A) (l : list A) :
  NoDup (List.map uuid_of l) -> In x l ->
  List.filter (fun y => String.eqb (uuid_of y) (uuid_of x)) l = [x].
Proof.
  induction l as [|y l IH]; intros Hnd Hin; [destruct Hin|].
  simpl in Hnd. apply NoDup_cons in Hnd as [Hy Hnd].
  rewrite list_elem_of_In in Hy. simpl.
  destruct Hin as [->|Hin].
  - rewrite String.eqb_refl. f_equal. apply filter_none. exact Hy.
  - destruct (String.eqb (uuid_of y) (uuid_of x)) eqn:Heq.
    + apply String.eqb_eq in Heq. exfalso. apply Hy. rewrite Heq.
      now apply in_map.
    + apply IH; assumption.
Qed.

End UniqueUuid.

(** X22. A characteristic can be looked up once. On a connected device,
    for a service object whose cache is empty (as its constructor leaves
    it) and whose native characteristics have pairwise distinct UUIDs,
    the first [getCharacteristic(uuid)] for the UUID of a native
    characteristic resolves to the object made for it; the same call
    repeated on the resulting service throws "Characteristic not found",
    the cache now holding two objects for that UUID. *)
Theorem getCharacteristic_only_once :
  forall (getCharacteristicUUID : UUID -> Completion string)
         (gatt : BluetoothRemoteGATTServer) (u : UUID)
         (this : BluetoothRemoteGATTService) (native : Characteristic) (w : Ambient),
    connected gatt = true ->
    svc_chars this = [] ->
    NoDup (List.map characteristic_uuid (characteristics (svc_service this))) ->
    In native (characteristics (svc_service this)) ->
    truthy_uuid (Some u) = true ->
    getCharacteristicUUID u = Normal (characteristic_uuid native) ->
    let cached :=
      List.map (new_BluetoothRemoteGATTCharacteristic (svc_uuid this))
        (characteristics (svc_service this)) in
    getCharacteristic getCharacteristicUUID gatt (Some u) this w
    = (Normal (new_BluetoothRemoteGATTCharacteristic (svc_uuid this) native),
       set_svc_chars cached this, w)
    /\ getCharacteristic getCharacteristicUUID gatt (Some u) (set_svc_chars cached this) w
       = (Throw (Error "Characteristic not found"),
          set_svc_chars (cached ++ cached) this, w).
Proof.
  intros getCharacteristicUUID gatt u this native w
         Hconn Hempty Hnd Hin Htruthy Hnorm cached.
  set (char := new_BluetoothRemoteGATTCharacteristic (svc_uuid this) native).
  assert (Hin' : In char cached) by (apply in_map; exact Hin).
  assert (Hnd' : NoDup (List.map char_uuid cached)).
  { unfold cached. rewrite List.map_map. exact Hnd. }
  assert (Hone : List.filter (fun c => String.eqb (char_uuid c) (characteristic_uuid native))
                   cached = [char]).
  { exact (filter_unique char_uuid char cached Hnd' Hin'). }
  split.
  - unfold getCharacteristic, getCharacteristics.
    rewrite Hconn, Htruthy, Hnorm, Hempty. cbn [negb app].
    fold cached. cbn [set_svc_chars svc_chars]. rewrite Hone. reflexivity.
  - unfold getCharacteristic, getCharacteristics.
    rewrite Hconn, Htruthy, Hnorm. cbn [negb set_svc_chars svc_chars svc_uuid svc_service].
    fold cached. rewrite List.filter_app, Hone. reflexivity.
Qed.

Lemma getCharacteristic_only_once_witness :
  connected Samples.connected_server = true
  /\ svc_chars Scenarios.fresh_service = []
  /\ NoDup (List.map characteristic_uuid
              (characteristics (svc_service Scenarios.fresh_service)))
  /\ In Scenarios.serial_number (characteristics (svc_service Scenarios.fresh_service))
  /\ truthy_uuid (Some (UUIDString "2a25")) = true
  /\ Samples.keep_uuid (UUIDString "2a25")
     = Normal (characteristic_uuid Scenarios.serial_number)
  /\ fst (fst (getCharacteristic Samples.keep_uuid Samples.connected_server
                 (Some (UUIDString "2a25")) Scenarios.fresh_service quiet))
     = Normal (new_BluetoothRemoteGATTCharacteristic "180a" Scenarios.serial_number).
Proof.
  assert (Hnd : NoDup (List.map characteristic_uuid
                         (characteristics (svc_service Scenarios.fresh_service)))).
  { simpl. apply NoDup_cons. split.
    - intros Hin. apply list_elem_of_singleton in Hin. discriminate.
    - apply NoDup_singleton. }
  assert (Hin : In Scenarios.serial_number
                  (characteristics (svc_service Scenarios.fresh_service))).
  { right. now left. }
  split; [reflexivity|]. split; [reflexivity|]. split; [exact Hnd|].
  split; [exact Hin|]. split; [reflexivity|]. split; [reflexivity|].
  rewrite (proj1 (getCharacteristic_only_once Samples.keep_uuid
                    Samples.connected_server (UUIDString "2a25")
                    Scenarios.fresh_service Scenarios.serial_number quiet
                    eq_refl eq_refl Hnd Hin eq_refl eq_refl)).
  reflexivity.
Defined.

(** ** Descriptors and included services *)

(** X23. The descriptor cache of a characteristic is never filled: for
    a characteristic whose cache is empty (as its constructor leaves it)
    on a connected device, whatever descriptors the native
    characteristic lists, [getDescriptors(uuid)] resolves to the empty
    array when [uuid] is missing, [0] or the empty string, and throws
    "getDescriptors error: descriptor not found" for every other UUID,
    without running the normaliser; [getDescriptor(uuid)] never
    resolves: it throws the [TypeError] "No descriptor specified" in
    the first case and "getDescriptors error: descriptor not found" in
    the second. Neither calls the binding or changes the
    characteristic. *)
Theorem getDescriptor_never_resolves :
  forall (getDescriptorUUID : UUID -> Completion string)
         (gatt : BluetoothRemoteGATTServer) (uuid : option UUID)
         (this : BluetoothRemoteGATTCharacteristic) (w : Ambient),
    connected gatt = true ->
    char_descriptors this = [] ->
    getDescriptors getDescriptorUUID gatt uuid this w
    = (if truthy_uuid uuid
       then Throw (Error "getDescriptors error: descriptor not found")
       else Normal [],
       this, w)
    /\ getDescriptor getDescriptorUUID gatt uuid this w
       = (Throw (if truthy_uuid uuid
                 then Error "getDescriptors error: descriptor not found"
                 else TypeError "No descriptor specified"),
          this, w).
Proof.
  intros getDescriptorUUID gatt uuid this w Hconn Hempty.
  assert (Hplural : getDescriptors getDescriptorUUID gatt uuid this w
                    = (if truthy_uuid uuid
                       then Throw (Error "getDescriptors error: descriptor not found")
                       else Normal [],
                       this, w)).
  { unfold getDescriptors, truthy_array.
    rewrite Hconn. cbn [negb]. cbv beta iota zeta.
    destruct uuid as [u|]; [|rewrite Hempty; reflexivity].
    destruct (truthy_uuid (Some u)); cbn [negb]; rewrite Hempty; reflexivity. }
  split; [exact Hplural|].
  unfold getDescriptor. rewrite Hconn. cbn [negb].
  destruct (truthy_uuid uuid) eqn:Htruthy; cbn [negb]; [|reflexivity].
  rewrite Hplural. reflexivity.
Qed.

Lemma getDescriptor_never_resolves_witness :
  connected Samples.connected_server = true
  /\ char_descriptors Samples.model_number_char = []
  /\ descriptors (char_characteristic Samples.model_number_char) = ["2902"]
  /\ getDescriptor Samples.keep_uuid Samples.connected_server
       (Some (UUIDString "2902")) Samples.model_number_char quiet
     = (Throw (Error "getDescriptors error: descriptor not found"),
        Samples.model_number_char, quiet)
  /\ getDescriptor Samples.keep_uuid Samples.connected_server
       (Some (UUIDNumber 0)) Samples.model_number_char quiet
     = (Throw (TypeError "No descriptor specified"), Samples.model_number_char, quiet).
Proof.
  split; [reflexivity|]. split; [reflexivity|]. split; [reflexivity|].
  split.
  - apply (getDescriptor_never_resolves Samples.keep_uuid Samples.connected_server
             (Some (UUIDString "2902")) Samples.model_number_char quiet
             eq_refl eq_refl).
  - apply (getDescriptor_never_resolves Samples.keep_uuid Samples.connected_server
             (Some (UUIDNumber 0)) Samples.model_number_char quiet
             eq_refl eq_refl).
Defined.

(** X24. The included services of a service are never discovered: with
    the empty array the constructor sets, on a connected device,
    whatever services the binding exposes and without calling it,
    [getIncludedServices(uuid)] resolves to the empty array when [uuid]
    is missing, [0] or the empty string, and throws "getIncludedServices
    error: service not found" for every other UUID;
    [getIncludedService(uuid)] never resolves: it throws the [TypeError]
    "No service specified" in the first case and "getIncludedServices
    error: service not found" in the second. *)
Theorem getIncludedService_never_resolves :
  forall (bindings : Bindings) (getServiceUUID : UUID -> Completion string)
         (gatt : BluetoothRemoteGATTServer) (uuid : option UUID) (w : Ambient),
    connected gatt = true ->
    getIncludedServices bindings getServiceUUID gatt uuid [] w
    = (if truthy_uuid uuid
       then Throw (Error "getIncludedServices error: service not found")
       else Normal [],
       [], w)
    /\ getIncludedService bindings getServiceUUID gatt uuid [] w
       = (Throw (if truthy_uuid uuid
                 then Error "getIncludedServices error: service not found"
                 else TypeError "No service specified"),
          [], w).
Proof.
  intros bindings getServiceUUID gatt uuid w Hconn.
  assert (Hplural : getIncludedServices bindings getServiceUUID gatt uuid [] w
                    = (if truthy_uuid uuid
                       then Throw (Error "getIncludedServices error: service not found")
                       else Normal [],
                       [], w)).
  { unfold getIncludedServices, truthy_array.
    rewrite Hconn. cbn [negb]. cbv beta iota zeta.
    destruct uuid as [u|]; [|reflexivity].
    destruct (truthy_uuid (Some u)); reflexivity. }
  split; [exact Hplural|].
  unfold getIncludedService. rewrite Hconn. cbn [negb].
  destruct (truthy_uuid uuid) eqn:Htruthy; cbn [negb]; [|reflexivity].
  rewrite Hplural. reflexivity.
Qed.

Lemma getIncludedService_never_resolves_witness :
  connected Samples.connected_server = true
  /\ services_result Samples.accepting = [Samples.device_information]
  /\ getIncludedServices Samples.accepting Samples.keep_uuid Samples.connected_server
       None [] quiet
     = (Normal [], [], quiet)
  /\ getIncludedService Samples.accepting Samples.keep_uuid Samples.connected_server
       (Some (UUIDString "180a")) [] quiet
     = (Throw (Error "getIncludedServices error: service not found"), [], quiet)
  /\ getIncludedService Samples.accepting Samples.keep_uuid Samples.connected_server
       (Some (UUIDString "")) [] quiet
     = (Throw (TypeError "No service specified"), [], quiet).
Proof.
  split; [reflexivity|]. split; [reflexivity|].
  split; [|split].
  - apply (getIncludedService_never_resolves Samples.accepting Samples.keep_uuid
             Samples.connected_server None quiet eq_refl).
  - apply (getIncludedService_never_resolves Samples.accepting Samples.keep_uuid
             Samples.connected_server (Some (UUIDString "180a")) quiet eq_refl).
  - apply (getIncludedService_never_resolves Samples.accepting Samples.keep_uuid
             Samples.connected_server (Some (UUIDString "")) quiet eq_refl).
Defined.

(** ** A characteristic over its lifetime *)

Lemma count_events_app (target : EventTarget) (type : string) (l k : list Event) :
  count_events target type (l ++ k)
  = count_events target type l + count_events target type k.
Proof. unfold count_events. now rewrite List.filter_app, length_app. Qed.

(** A descriptor lookup changes neither the characteristic nor its
    surroundings. *)
Lemma getDescriptors_keeps (getDescriptorUUID : UUID -> Completion string) :
  forall gatt uuid this w,
    snd (fst (getDescriptors getDescriptorUUID gatt uuid this w)) = this
    /\ snd (getDescriptors getDescriptorUUID gatt uuid this w) = w.
Proof.
  intros gatt uuid this w. unfold getDescriptors, truthy_array.
  destruct (connected gatt); cbn [negb]; [|split; reflexivity].
  cbv beta iota zeta.
  destruct uuid as [u|]; [|split; reflexivity].
  destruct (truthy_uuid (Some u)); cbn [negb]; [|split; reflexivity].
  destruct (filter_by_uuid descriptor_uuid getDescriptorUUID u (char_descriptors this))
    as [l|e]; [destruct (Nat.eqb (length l) 1)|]; split; reflexivity.
Qed.

Lemma getDescriptor_keeps (getDescriptorUUID : UUID -> Completion string) :
  forall gatt uuid this w,
    snd (fst (getDescriptor getDescriptorUUID gatt uuid this w)) = this
    /\ snd (getDescriptor getDescriptorUUID gatt uuid this w) = w.
Proof.
  intros gatt uuid this w. unfold getDescriptor.
  destruct (connected gatt); cbn [negb]; [|split; reflexivity].
  destruct (truthy_uuid uuid); cbn [negb]; [|split; reflexivity].
  pose proof (getDescriptors_keeps getDescriptorUUID gatt uuid this w) as [Hthis Hw].
  destruct (getDescriptors getDescriptorUUID gatt uuid this w) as [[r this1] w1].
  simpl in Hthis, Hw. subst this1 w1.
  destruct r as [[|d l]|e]; split; reflexivity.
Qed.

(** One call keeps the identity and the descriptor cache of the
    characteristic and appends to the event log nothing, one bubbling,
    or a ["notify"] event and one bubbling. *)
Lemma characteristic_step_effect (getDescriptorUUID : UUID -> Completion string) :
  forall (c : Bindings * BluetoothRemoteGATTServer * CharacteristicCall)
         (this : BluetoothRemoteGATTCharacteristic) (w : Ambient),
    let '(this', w') := characteristic_step getDescriptorUUID (this, w) c in
    char_service this' = char_service this
    /\ char_uuid this' = char_uuid this
    /\ char_characteristic this' = char_characteristic this
    /\ char_descriptors this' = char_descriptors this
    /\ (events w' = events w
        \/ events w' = events w ++ change_events this
        \/ events w' = events w ++
             {| event_target := OnCharacteristic (char_service this) (char_uuid this);
                event_type := "notify" |} :: change_events this).
Proof.
  intros [[bindings gatt] op] this w.
  destruct op as [|value|value|value| | |uuid|uuid|data]; cbn [characteristic_step].
  - rewrite readValue_outcome. simpl. repeat split. now left.
  - unfold writeValue, writeValueWithResponse.
    destruct (write_command_result _ _ _ _); simpl; repeat split; now left.
  - unfold writeValueWithResponse.
    destruct (write_command_result _ _ _ _); simpl; repeat split; now left.
  - unfold writeValueWithoutResponse.
    destruct (write_request_result _ _ _ _); simpl; repeat split; now left.
  - unfold startNotifications.
    destruct (connected gatt); simpl; repeat split; now left.
  - unfold stopNotifications.
    destruct (connected gatt); simpl; repeat split; now left.
  - pose proof (getDescriptors_keeps getDescriptorUUID gatt uuid this w) as [Hthis Hw].
    destruct (getDescriptors getDescriptorUUID gatt uuid this w) as [[r this1] w1].
    simpl in Hthis, Hw. subst this1 w1. repeat split. now left.
  - pose proof (getDescriptor_keeps getDescriptorUUID gatt uuid this w) as [Hthis Hw].
    destruct (getDescriptor getDescriptorUUID gatt uuid this w) as [[r this1] w1].
    simpl in Hthis, Hw. subst this1 w1. repeat split. now left.
  - unfold notification_callback. simpl. repeat split. right; right.
    unfold change_events. now rewrite <- !app_assoc.
Qed.

(** X25. Over any sequence of calls and native notifications on a
    characteristic, with any answers of the binding and any connection
    state at each call: the characteristic keeps its service, its UUID,
    its native characteristic and its descriptor cache, and the
    [characteristicvaluechanged] events dispatched on the
    characteristic, on its service, on the device and on the hub grow by
    the same number - a value change is never announced at one level
    without the others. *)
Theorem characteristic_bubbling_in_step :
  forall (getDescriptorUUID : UUID -> Completion string)
         (trace : list (Bindings * BluetoothRemoteGATTServer * CharacteristicCall))
         (this : BluetoothRemoteGATTCharacteristic) (w : Ambient),
    let '(this', w') := characteristic_run getDescriptorUUID trace (this, w) in
    char_service this' = char_service this
    /\ char_uuid this' = char_uuid this
    /\ char_characteristic this' = char_characteristic this
    /\ char_descriptors this' = char_descriptors this
    /\ exists n,
         count_events (OnCharacteristic (char_service this) (char_uuid this))
           "characteristicvaluechanged" (events w')
         = count_events (OnCharacteristic (char_service this) (char_uuid this))
             "characteristicvaluechanged" (events w) + n
         /\ count_events (OnService (char_service this))
              "characteristicvaluechanged" (events w')
            = count_events (OnService (char_service this))
                "characteristicvaluechanged" (events w) + n
         /\ count_events OnDevice "characteristicvaluechanged" (events w')
            = count_events OnDevice "characteristicvaluechanged" (events w) + n
         /\ count_events OnBluetooth "characteristicvaluechanged" (events w')
            = count_events OnBluetooth "characteristicvaluechanged" (events w) + n.
Proof.
  intros getDescriptorUUID trace. unfold characteristic_run.
  induction trace as [|c rest IH]; intros this w; cbn [fold_left].
  - repeat split. exists 0. rewrite !Nat.add_0_r. repeat split.
  - pose proof (characteristic_step_effect getDescriptorUUID c this w) as Hstep.
    destruct (characteristic_step getDescriptorUUID (this, w) c) as [this1 w1].
    destruct Hstep as (Hs & Hu & Hc & Hd & Hev).
    specialize (IH this1 w1).
    destruct (fold_left (characteristic_step getDescriptorUUID) rest (this1, w1))
      as [this' w'].
    destruct IH as (Hs' & Hu' & Hc' & Hd' & n & Hn1 & Hn2 & Hn3 & Hn4).
    rewrite Hs, Hu in *.
    split; [congruence|]. split; [congruence|]. split; [congruence|].
    split; [congruence|].
    pose proof (change_events_once_per_level this) as (Ha & Hb & Hc0 & Hd0 & _).
    pose proof (notify_then_change_events_once_per_level this)
      as (Ha' & Hb' & Hc0' & Hd0' & _).
    destruct Hev as [Hev | [Hev | Hev]]; rewrite Hev in *.
    + exists n. repeat split; assumption.
    + exists (S n). rewrite !count_events_app in *. repeat split; lia.
    + exists (S n). rewrite !count_events_app in *. repeat split; lia.
Qed.
